(** * StorEdge DaVinci unit status analyzer: embedding and properties

    A shallow embedding of [src/unit_status_analyzer.py] (class
    [UnitStatusAnalyzer]) and of the column check of
    [streamlit_app.py] ([validate_csv_file]).

    Conventions of the embedding.
    - A pandas [DataFrame] as returned by [pd.read_csv] or
      [pd.read_excel] is a header (the list of column labels) and a list
      of rows; a cell holds the text that [astype(str)] gives for it (so
      a missing cell reads ["nan"]).  A label is a string, or, in a
      table read from a spreadsheet, a value of another type.
    - A Python [str] is modelled as the [string] of the bytes of its
      UTF-8 encoding: a character is one byte, or a leading byte and the
      continuation bytes that follow it.  Trimming and slicing work on
      characters; whitespace is the whole of [str.isspace].
    - The case conversions convert the ASCII letters.  On ASCII text
      this is [str.upper] and [str.lower]; a statement that shows
      converted text assumes ASCII text.  The analyzer compares the
      upper-cased code with the constants ["OCC"] and ["VAC"] only, and
      [str.upper] turns no text with a character outside ASCII into one
      of them, so the outcome of these comparisons is that of the
      program on every text.
    - A [dict] is a [gmap]; a Python [set] is a [gset].
    - The [logger] is a list of records, in emission order.  Only the
      records of level WARNING and ERROR are kept; the INFO records
      carry no decision.
    - An exception is a value of type [exn]; a function that may raise
      returns in the monad [Res]. *)

From Stdlib Require Import ZArith Floats Uint63 Ascii.
From stdpp Require Import gmap strings list pretty sorting.

(** ** Python string operations *)

Module Py.

(** A byte that continues a character of several bytes. *)
Definition is_continuation (c : ascii) : bool :=
  let n := nat_of_ascii c in (128 <=? n) && (n <? 192).

(** [str.isspace] on one character, by the length of its encoding.
    One byte: TAB, LF, VT, FF, CR, FS, GS, RS, US and the space.
    Two bytes: U+0085 and U+00A0.
    Three bytes: U+1680, U+2000 to U+200A, U+2028, U+2029, U+202F,
    U+205F and U+3000. *)
Definition isspace (c : ascii) : bool :=
  let n := nat_of_ascii c in
  ((9 <=? n) && (n <=? 13)) || ((28 <=? n) && (n <=? 32)).

Definition isspace2 (c1 c2 : ascii) : bool :=
  let n1 := nat_of_ascii c1 in
  let n2 := nat_of_ascii c2 in
  (n1 =? 194) && ((n2 =? 133) || (n2 =? 160)).

Definition isspace3 (c1 c2 c3 : ascii) : bool :=
  let n1 := nat_of_ascii c1 in
  let n2 := nat_of_ascii c2 in
  let n3 := nat_of_ascii c3 in
  ((n1 =? 225) && (n2 =? 154) && (n3 =? 128))
  || ((n1 =? 226) && (n2 =? 128)
      && (((128 <=? n3) && (n3 <=? 138))
          || (n3 =? 168) || (n3 =? 169) || (n3 =? 175)))
  || ((n1 =? 226) && (n2 =? 129) && (n3 =? 159))
  || ((n1 =? 227) && (n2 =? 128) && (n3 =? 128)).

(** Drop the characters at the head of [s] that [sp2] and [sp3]
    recognise as whitespace of two and three bytes, and the whitespace
    of one byte. *)
Fixpoint drop_space (sp2 : ascii -> ascii -> bool)
    (sp3 : ascii -> ascii -> ascii -> bool) (s : string) : string :=
  match s with
  | String c1 s1 =>
      if isspace c1 then drop_space sp2 sp3 s1
      else
        match s1 with
        | String c2 s2 =>
            if sp2 c1 c2 then drop_space sp2 sp3 s2
            else
              match s2 with
              | String c3 s3 =>
                  if sp3 c1 c2 c3 then drop_space sp2 sp3 s3 else s
              | EmptyString => s
              end
        | EmptyString => s
        end
  | EmptyString => EmptyString
  end.

Definition lstrip (s : string) : string := drop_space isspace2 isspace3 s.

(** From the end the bytes of a character come in reverse order. *)
Definition rstrip (s : string) : string :=
  String.rev
    (drop_space (λ c2 c1, isspace2 c1 c2) (λ c3 c2 c1, isspace3 c1 c2 c3)
       (String.rev s)).

(** [s.strip()] *)
Definition strip (s : string) : string := rstrip (lstrip s).

Fixpoint lstrip_char (x : ascii) (s : string) : string :=
  match s with
  | String c s' => if decide (c = x) then lstrip_char x s' else s
  | EmptyString => EmptyString
  end.

(** [s.strip(x)] for a one-character argument *)
Definition strip_char (x : ascii) (s : string) : string :=
  String.rev (lstrip_char x (String.rev (lstrip_char x s))).

Definition upper_char (c : ascii) : ascii :=
  let n := nat_of_ascii c in
  if (97 <=? n) && (n <=? 122) then ascii_of_nat (n - 32) else c.

Definition lower_char (c : ascii) : ascii :=
  let n := nat_of_ascii c in
  if (65 <=? n) && (n <=? 90) then ascii_of_nat (n + 32) else c.

Fixpoint map_chars (f : ascii -> ascii) (s : string) : string :=
  match s with
  | String c s' => String (f c) (map_chars f s')
  | EmptyString => EmptyString
  end.

(** [s.isascii()] *)
Fixpoint isascii (s : string) : bool :=
  match s with
  | String c s' => (nat_of_ascii c <? 128) && isascii s'
  | EmptyString => true
  end.

(** [s.upper()] and [s.lower()]: the conversion of the letters a to z
    and A to Z.  This is the whole of the conversion on a text for which
    [isascii] holds; the characters of several bytes are left as they
    are. *)
Definition upper : string -> string := map_chars upper_char.
Definition lower : string -> string := map_chars lower_char.

(** [s[:n]]: the first [n] characters, each with all its bytes. *)
Fixpoint slice_to (n : nat) (s : string) : string :=
  match s with
  | String c s' =>
      if is_continuation c then String c (slice_to n s')
      else
        match n with
        | 0 => EmptyString
        | S n' => String c (slice_to n' s')
        end
  | EmptyString => EmptyString
  end.

(** [sub in s] for two strings *)
Fixpoint contains (sub s : string) : bool :=
  String.prefix sub s ||
  match s with
  | String _ s' => contains sub s'
  | EmptyString => false
  end.

(** [repr] of a string without quote or escape characters, and of a
    list of such strings, as an f-string prints them. *)
Definition repr_str (s : string) : string := "'" +:+ s +:+ "'".

Fixpoint join (sep : string) (l : list string) : string :=
  match l with
  | [] => EmptyString
  | [x] => x
  | x :: l' => x +:+ sep +:+ join sep l'
  end.

Definition repr_list (l : list string) : string :=
  "[" +:+ join ", " (repr_str <$> l) +:+ "]".

(** [any(p(x) for x in l)] *)
Definition any {A} (p : A -> bool) (l : list A) : bool := existsb p l.

End Py.

(** ** Data frames, as read from a file *)

(** A column label.  A table read from delimited text has strings for
    labels; a spreadsheet can also give a number or a date, which is
    then known by the name of its Python type. *)
Inductive label :=
| StrLabel (name : string)
| OtherLabel (type_name : string).

#[global] Instance label_eq_dec : EqDecision label.
Proof. solve_decision. Defined.

Coercion StrLabel : string >-> label.

(** [isinstance(col, str)] *)
Definition is_str (col : label) : bool :=
  match col with
  | StrLabel _ => true
  | OtherLabel _ => false
  end.

Record DataFrame := {
  columns : list label;
  values : list (list string)
}.

(** The header of a table read from delimited text: every label is a
    string. *)
Definition header (names : list string) : list label := StrLabel <$> names.

(** [df.columns.get_loc(col)]: the position of a column name. *)
Definition get_loc (cols : list label) (col : string) : option nat :=
  fst <$> list_find (λ c, c = StrLabel col) cols.

(** The cell of row [r] under column [col]; a row shorter than the header
    is padded by the reader with missing cells. *)
Definition cell (cols : list label) (r : list string) (col : string) : string :=
  match get_loc cols col with
  | Some i => default "nan" (r !! i)
  | None => "nan"
  end.

(** [Series.unique()]: the distinct values, in order of first appearance. *)
Definition unique (l : list string) : list string :=
  foldl (λ acc x, if decide (x ∈ acc) then acc else acc ++ [x]) [] l.

(** ** Exceptions and log records *)

Inductive exn :=
| ValueError (msg : string)
| AttributeError (msg : string).

(** [str(e)] *)
Definition str_exn (e : exn) : string :=
  match e with
  | ValueError msg | AttributeError msg => msg
  end.

Inductive level := WARNING | ERROR.

Inductive log_record :=
| UnmappedStatuses (codes : list string)
    (* warning: Found unmapped statuses: {codes} *)
| InvalidLockStatuses (statuses : list string)
    (* warning: Found invalid lock statuses: {statuses} *)
| OccupiedNotInRentroll (unit : string)
    (* warning: Unit {unit} marked as occupied but not found in rentroll
       - treating as vacant *)
| RentrollNotInUnits (units : gset string)
    (* warning: Units in rentroll but not in units.csv: {units} *)
| ErrorLoadingUnits (e : exn)
| ErrorLoadingRentroll (e : exn)
| ErrorLoadingLocks (e : exn)
| AnalysisFailed (e : exn).

Definition levelno (r : log_record) : level :=
  match r with
  | UnmappedStatuses _ | InvalidLockStatuses _
  | OccupiedNotInRentroll _ | RentrollNotInUnits _ => WARNING
  | ErrorLoadingUnits _ | ErrorLoadingRentroll _
  | ErrorLoadingLocks _ | AnalysisFailed _ => ERROR
  end.

(** A computation that may log and may raise. *)
Definition Res (A : Type) : Type := (exn + A) * list log_record.

Definition ret {A} (a : A) : Res A := (inr a, []).
Definition raise {A} (e : exn) : Res A := (inl e, []).
Definition log (r : log_record) : Res unit := (inr tt, [r]).

Definition bind {A B} (m : Res A) (k : A -> Res B) : Res B :=
  match m with
  | (inl e, l) => (inl e, l)
  | (inr a, l) => let '(r, l') := k a in (r, l ++ l')
  end.

(** [try: m except Exception as e: h e; raise] *)
Definition try_reraise {A} (m : Res A) (h : exn -> log_record) : Res A :=
  match m with
  | (inl e, l) => (inl e, l ++ [h e])
  | (inr a, l) => (inr a, l)
  end.

Notation "'do' x <- m ; k" := (bind m (fun x => k))
  (at level 10, x name, m at level 100, k at level 200).
Notation "'do_' m ; k" := (bind m (fun _ => k))
  (at level 10, m at level 100, k at level 200).

(** [df.apply(f, axis=1)] for an [f] that logs: the rows are visited in
    order. *)
Fixpoint apply_rows {A B} (f : A -> Res B) (rows : list A) : Res (list B) :=
  match rows with
  | [] => ret []
  | r :: rows' =>
      do b <- f r;
      do bs <- apply_rows f rows';
      ret (b :: bs)
  end.

(** ** The tables of the analysis, one record per stage *)

(** Rows of [units_df], the result of [load_units_file].  [Unit_Status]
    is [None] where pandas holds NaN. *)
Module Units.
Record row := {
  Unit : string;
  Status : string;
  Status_Clean : string;
  Unit_Status : option string
}.
End Units.

(** Rows of [rentroll_df], the result of [load_rentroll_file]. *)
Module Rentroll.
Record row := {
  Unit : string;
  Days_Past_Due_Clean : float;
  Payment_Status : string
}.
End Rentroll.

(** Rows of [locks_df], the result of [load_locks_file]. *)
Module Locks.
Record row := {
  Unit : string;
  Lock_Status : string
}.
End Locks.

(** Rows of [units_with_status], the result of [determine_unit_status]. *)
Module WithStatus.
Record row := {
  Unit : string;
  Unit_Status : option string;
  Final_Status : string
}.
End WithStatus.

(** Rows of [units_with_locks], the result of [add_lock_status]. *)
Module WithLocks.
Record row := {
  Unit : string;
  Unit_Status : option string;
  Final_Status : string;
  Actual_Lock_Status : string;
  Expected_Lock_Status : string
}.
End WithLocks.

(** Rows of [result_df] inside [detect_miscompares] once the column
    [Is_Miscompare] is set: what [get_miscompare_severity] receives. *)
Module Flagged.
Record row := {
  Unit : string;
  Unit_Status : option string;
  Final_Status : string;
  Actual_Lock_Status : string;
  Expected_Lock_Status : string;
  Is_Miscompare : bool
}.
End Flagged.

(** Rows of [master_df], the result of [detect_miscompares]. *)
Module Master.
Record row := {
  Unit : string;
  Unit_Status : option string;
  Final_Status : string;
  Actual_Lock_Status : string;
  Expected_Lock_Status : string;
  Is_Miscompare : bool;
  Miscompare_Severity : string
}.
End Master.

(** [self.valid_lock_statuses], set once in [__init__]. *)
Definition valid_lock_statuses : list string :=
  ["Assigned Vacant"; "Tenant Using Lock"; "Assigned Auction"; "Assigned Overlock"].

(** ** Loading and normalising the three inputs *)

(** [[col for col in required_cols if col not in df.columns]] *)
Definition missing_from (cols : list label) (required_cols : list string)
    : list string :=
  filter (λ col, StrLabel col ∉ cols) required_cols.

Definition status_mapping : gmap string string :=
  <["OCC" := "Occupied"]> (<["VAC" := "Vacant"]> ∅).

Definition load_units_file (df : DataFrame) : Res (list Units.row) :=
  try_reraise
    (let required_cols := ["Unit"; "Status"] in
     let missing_cols := missing_from (columns df) required_cols in
     match missing_cols with
     | _ :: _ =>
         raise (ValueError ("Missing required columns in units.csv: "
                            +:+ Py.repr_list missing_cols))
     | [] =>
         let rows :=
           (λ r,
              let status := cell (columns df) r "Status" in
              let status_clean := Py.upper (Py.slice_to 3 status) in
              {| Units.Unit := Py.strip (cell (columns df) r "Unit");
                 Units.Status := status;
                 Units.Status_Clean := status_clean;
                 Units.Unit_Status := status_mapping !! status_clean |})
             <$> values df in
         let unmapped := filter (λ r, Units.Unit_Status r = None) rows in
         match unmapped with
         | _ :: _ =>
             do_ log (UnmappedStatuses (unique (Units.Status_Clean <$> unmapped)));
             ret ((λ r,
                     {| Units.Unit := Units.Unit r;
                        Units.Status := Units.Status r;
                        Units.Status_Clean := Units.Status_Clean r;
                        Units.Unit_Status :=
                          Some (default "Unknown" (Units.Unit_Status r)) |})
                    <$> rows)
         | [] => ret rows
         end
     end)
    ErrorLoadingUnits.

(** A column name wrapped in double quotes (character 34), as a header
    keeps it when the reader does not unquote it. *)
Definition quoted (s : string) : string :=
  String (ascii_of_nat 34) (s +:+ String (ascii_of_nat 34) EmptyString).

Definition unit_col_candidates : list string :=
  ["Unit"; "UNIT"; quoted "Unit"; quoted "UNIT"].

Definition days_col_candidates : list string :=
  ["Days Past Due"; "DAYS PAST DUE"; quoted "Days Past Due"; quoted "DAYS PAST DUE"].

(** [for col in candidates: if col in df.columns: found = col; break] *)
Definition first_present (cols : list label) (candidates : list string)
    : option string :=
  snd <$> list_find (λ col, StrLabel col ∈ cols) candidates.

(** [fillna(0)] on a numeric cell *)
Definition fillna0 (x : float) : float :=
  if PrimFloat.is_nan x then 0%float else x.

Section Pipeline.

(** [pd.to_numeric(_, errors='coerce')] on one cell: the number the
    text denotes, NaN when it denotes none. *)
Variable to_numeric : string -> float.

Definition load_rentroll_file (df : DataFrame) : Res (list Rentroll.row) :=
  try_reraise
    (let available_cols := columns df in
     let unit_col_found :=
       Py.any (λ col, bool_decide (StrLabel col ∈ available_cols))
         unit_col_candidates in
     let days_col_found :=
       Py.any (λ col, bool_decide (StrLabel col ∈ available_cols))
         days_col_candidates in
     let missing_cols :=
       (if unit_col_found then [] else ["Unit"])
       ++ (if days_col_found then [] else ["Days Past Due"]) in
     match missing_cols with
     | _ :: _ =>
         raise (ValueError ("Missing required columns in rentroll.csv: "
                            +:+ Py.repr_list missing_cols))
     | [] =>
         match first_present (columns df) unit_col_candidates,
               first_present (columns df) days_col_candidates with
         | Some unit_col, Some days_col =>
             ret ((λ r,
                     let days := fillna0 (to_numeric (cell (columns df) r days_col)) in
                     {| Rentroll.Unit := Py.strip (cell (columns df) r unit_col);
                        Rentroll.Days_Past_Due_Clean := days;
                        Rentroll.Payment_Status :=
                          if PrimFloat.ltb 0 days then "Delinquent" else "Current" |})
                    <$> values df)
         | _, _ =>
             (* [df[None]]: unreachable once the validation has passed *)
             raise (ValueError "None")
         end
     end)
    ErrorLoadingRentroll.

Definition load_locks_file (df : DataFrame) : Res (list Locks.row) :=
  try_reraise
    (let required_cols := ["Unit Number"; "Status"] in
     let missing_cols := missing_from (columns df) required_cols in
     match missing_cols with
     | _ :: _ =>
         raise (ValueError ("Missing required columns in locks.csv: "
                            +:+ Py.repr_list missing_cols))
     | [] =>
         let rows :=
           (λ r,
              {| Locks.Unit := Py.strip (cell (columns df) r "Unit Number");
                 Locks.Lock_Status := Py.strip (cell (columns df) r "Status") |})
             <$> values df in
         let invalid_statuses :=
           filter (λ r, Locks.Lock_Status r ∉ valid_lock_statuses) rows in
         match invalid_statuses with
         | _ :: _ =>
             do_ log (InvalidLockStatuses (unique (Locks.Lock_Status <$> invalid_statuses)));
             ret rows
         | [] => ret rows
         end
     end)
    ErrorLoadingLocks.

(** ** Status resolution *)

(** [df.set_index('Unit')[col].to_dict()]: a later row overwrites an
    earlier one with the same unit. *)
Definition to_dict {A} (key value : A -> string) (rows : list A) : gmap string string :=
  foldl (λ m r, <[key r := value r]> m) ∅ rows.

Definition get_final_status (rentroll_mapping : gmap string string)
    (row : Units.row) : Res string :=
  let unit := Units.Unit row in
  let unit_status := Units.Unit_Status row in
  if decide (unit_status = Some "Vacant") then ret "Vacant"
  else if decide (unit_status = Some "Occupied") then
    match rentroll_mapping !! unit with
    | Some payment_status => ret ("Occupied-" +:+ payment_status)
    | None =>
        do_ log (OccupiedNotInRentroll unit);
        ret "Vacant"
    end
  else ret "Unknown".

Definition determine_unit_status (units_df : list Units.row)
    (rentroll_df : list Rentroll.row) : Res (list WithStatus.row) :=
  let rentroll_mapping := to_dict Rentroll.Unit Rentroll.Payment_Status rentroll_df in
  do result_df <-
    apply_rows
      (λ row,
         do final_status <- get_final_status rentroll_mapping row;
         ret {| WithStatus.Unit := Units.Unit row;
                WithStatus.Unit_Status := Units.Unit_Status row;
                WithStatus.Final_Status := final_status |})
      units_df;
  let units_in_rentroll_not_units : gset string :=
    list_to_set (Rentroll.Unit <$> rentroll_df)
    ∖ list_to_set (Units.Unit <$> units_df) in
  do_ (if decide (units_in_rentroll_not_units = ∅) then ret tt
       else log (RentrollNotInUnits units_in_rentroll_not_units));
  ret result_df.

End Pipeline.

(** ** Lock expectation *)

Definition get_expected_lock_status (final_status : string) : string :=
  if decide (final_status = "Vacant") then "Assigned Vacant"
  else if decide (final_status = "Occupied-Current") then "Tenant Using Lock"
  else if decide (final_status = "Occupied-Delinquent")
       then "Assigned Overlock or Assigned Auction"
  else "Unknown".

Definition add_lock_status (units_df : list WithStatus.row)
    (locks_df : list Locks.row) : list WithLocks.row :=
  let locks_mapping := to_dict Locks.Unit Locks.Lock_Status locks_df in
  (λ row,
     {| WithLocks.Unit := WithStatus.Unit row;
        WithLocks.Unit_Status := WithStatus.Unit_Status row;
        WithLocks.Final_Status := WithStatus.Final_Status row;
        WithLocks.Actual_Lock_Status :=
          default "No Lock Assigned" (locks_mapping !! WithStatus.Unit row);
        WithLocks.Expected_Lock_Status :=
          get_expected_lock_status (WithStatus.Final_Status row) |})
    <$> units_df.

(** ** Miscompare detection *)

(** [x in l] and [x not in l] on a list of strings *)
Definition py_in (x : string) (l : list string) : bool := bool_decide (x ∈ l).

Definition is_miscompare (row : WithLocks.row) : bool :=
  let actual := WithLocks.Actual_Lock_Status row in
  let final_status := WithLocks.Final_Status row in
  if decide (final_status = "Occupied-Delinquent") then
    negb (py_in actual ["Assigned Overlock"; "Assigned Auction"])
  else if decide (final_status = "Vacant") then
    bool_decide (actual ≠ "Assigned Vacant")
  else if decide (final_status = "Occupied-Current") then
    bool_decide (actual ≠ "Tenant Using Lock")
  else false.

Definition get_miscompare_severity (row : Flagged.row) : string :=
  if negb (Flagged.Is_Miscompare row) then "No Issue"
  else
    let actual := Flagged.Actual_Lock_Status row in
    let final_status := Flagged.Final_Status row in
    if bool_decide (final_status = "Vacant")
       && py_in actual ["Tenant Using Lock"; "Assigned Overlock"]
    then "HIGH - Vacant unit with tenant lock"
    else if bool_decide (final_status = "Occupied-Current")
            && py_in actual ["Assigned Vacant"; "Assigned Overlock"]
    then "HIGH - Current tenant without proper lock"
    else if bool_decide (final_status = "Occupied-Delinquent")
            && bool_decide (actual = "Assigned Vacant")
    then "HIGH - Delinquent unit without lock"
    else "MEDIUM - Lock status mismatch".

(** [result_df['Is_Miscompare'] = result_df.apply(is_miscompare, axis=1)] *)
Definition flag (row : WithLocks.row) : Flagged.row :=
  {| Flagged.Unit := WithLocks.Unit row;
     Flagged.Unit_Status := WithLocks.Unit_Status row;
     Flagged.Final_Status := WithLocks.Final_Status row;
     Flagged.Actual_Lock_Status := WithLocks.Actual_Lock_Status row;
     Flagged.Expected_Lock_Status := WithLocks.Expected_Lock_Status row;
     Flagged.Is_Miscompare := is_miscompare row |}.

(** [result_df['Miscompare_Severity'] =
      result_df.apply(get_miscompare_severity, axis=1)] *)
Definition grade (row : Flagged.row) : Master.row :=
  {| Master.Unit := Flagged.Unit row;
     Master.Unit_Status := Flagged.Unit_Status row;
     Master.Final_Status := Flagged.Final_Status row;
     Master.Actual_Lock_Status := Flagged.Actual_Lock_Status row;
     Master.Expected_Lock_Status := Flagged.Expected_Lock_Status row;
     Master.Is_Miscompare := Flagged.Is_Miscompare row;
     Master.Miscompare_Severity := get_miscompare_severity row |}.

Definition detect_miscompares (df : list WithLocks.row) : list Master.row :=
  grade <$> (flag <$> df).

(** ** Summary *)

(** [Series.value_counts().to_dict()] *)
Definition value_counts (l : list string) : gmap string nat :=
  foldl (λ m k, <[k := S (default 0 (m !! k))]> m) ∅ l.

(** [Series.sum()] of a boolean column: an integer *)
Definition sum_bool (l : list bool) : Z :=
  foldl (λ acc (b : bool), (acc + (if b then 1 else 0))%Z) 0%Z l.

(** The conversion of an integer operand of a true division to float64 *)
Definition to_float (z : Z) : float := PrimFloat.of_uint63 (Uint63.of_Z z).

Record Summary := {
  total_units : nat;
  unit_status_breakdown : gmap string nat;
  lock_status_breakdown : gmap string nat;
  miscompare_count : Z;
  miscompare_rate : float;
  severity_breakdown : gmap string nat
}.

Definition generate_summary_report (df : list Master.row) : Summary :=
  {| total_units := length df;
     unit_status_breakdown := value_counts (Master.Final_Status <$> df);
     lock_status_breakdown := value_counts (Master.Actual_Lock_Status <$> df);
     miscompare_count := sum_bool (Master.Is_Miscompare <$> df);
     miscompare_rate :=
       (to_float (sum_bool (Master.Is_Miscompare <$> df))
        / to_float (Z.of_nat (length df)) * 100)%float;
     severity_breakdown := value_counts (Master.Miscompare_Severity <$> df) |}.

(** ** The analyzer object and the complete run *)

Record Analyzer := {
  units_df : option (list Units.row);
  rentroll_df : option (list Rentroll.row);
  locks_df : option (list Locks.row);
  master_df : option (list Master.row)
}.

(** [UnitStatusAnalyzer()] *)
Definition init : Analyzer :=
  {| units_df := None; rentroll_df := None; locks_df := None; master_df := None |}.

(** One statement of a method body: run [m]; when it raises, the object
    stays as it is and the exception propagates. *)
Definition step {A B} (self : Analyzer) (m : Res A)
    (k : A -> Analyzer * Res B) : Analyzer * Res B :=
  match m with
  | (inl e, l) => (self, (inl e, l))
  | (inr a, l) => let '(self', (r, l')) := k a in (self', (r, l ++ l'))
  end.

Section Run.

Variable to_numeric : string -> float.

Definition run_analysis (self : Analyzer)
    (units_file rentroll_file locks_file : DataFrame)
    : Analyzer * Res (list Master.row) :=
  let '(self', r) :=
    step self (load_units_file units_file) (λ u,
      let self1 :=
        {| units_df := Some u; rentroll_df := rentroll_df self;
           locks_df := locks_df self; master_df := master_df self |} in
      step self1 (load_rentroll_file to_numeric rentroll_file) (λ rr,
        let self2 :=
          {| units_df := Some u; rentroll_df := Some rr;
             locks_df := locks_df self; master_df := master_df self |} in
        step self2 (load_locks_file locks_file) (λ lk,
          let self3 :=
            {| units_df := Some u; rentroll_df := Some rr;
               locks_df := Some lk; master_df := master_df self |} in
          step self3 (determine_unit_status u rr) (λ units_with_status,
            let units_with_locks := add_lock_status units_with_status lk in
            let master := detect_miscompares units_with_locks in
            let self4 :=
              {| units_df := Some u; rentroll_df := Some rr;
                 locks_df := Some lk; master_df := Some master |} in
            let summary := generate_summary_report master in
            (self4, ret master))))) in
  (self', try_reraise r AnalysisFailed).

End Run.

(** ** The upload check of the web front end ([streamlit_app.py]) *)

(** The comprehension over [df.columns] that trims each label and then
    removes the double quotes around it: the first label that is not a
    string has no method [strip]. *)
Fixpoint strip_labels (cols : list label) : exn + list string :=
  match cols with
  | [] => inr []
  | StrLabel col :: cols' =>
      match strip_labels cols' with
      | inr l => inr (Py.strip_char (ascii_of_nat 34) (Py.strip col) :: l)
      | inl e => inl e
      end
  | OtherLabel type_name :: _ =>
      inl (AttributeError
             ("'" +:+ type_name +:+ "' object has no attribute 'strip'"))
  end.

(** The table [df] is the one the function has read from the upload;
    [xlsx] tells whether the name of the upload ends in [.xlsx].  Every
    exception is caught and reported in the message.

    [str.lower] gives an ASCII letter for a character outside ASCII in
    two cases only: U+0130 becomes i followed by a combining dot, and
    U+212A becomes k.  The expected names that the front end passes
    ("Unit", "Status", "Days Past Due", "Unit Number") have no k and no
    i at their end, so neither case can complete a match, and the answer
    is that of the program on every header. *)
Definition validate_csv_file (df : DataFrame) (xlsx : bool)
    (expected_columns : list string) (file_name : string) : bool * string :=
  match strip_labels (columns df) with
  | inl e => (false, "Error reading " +:+ file_name +:+ ": " +:+ str_exn e)
  | inr available_cols =>
      let missing_cols :=
        filter
          (λ expected_col,
             ¬ Is_true (Py.any (λ col, Py.contains (Py.lower expected_col) (Py.lower col))
                          available_cols))
          expected_columns in
      match missing_cols with
      | _ :: _ =>
          (false, "Missing required columns in " +:+ file_name +:+ ": "
                  +:+ Py.repr_list missing_cols)
      | [] =>
          let file_type := if xlsx then "Excel" else "CSV" in
          (true, "✅ " +:+ file_name +:+ " (" +:+ file_type
                 +:+ ") validated successfully (" +:+ pretty (length (values df))
                 +:+ " rows)")
      end
  end.

(** ** A concrete reading of [to_numeric], for the examples

    Unsigned decimal integers are read as their value; every other text
    is NaN. *)

Fixpoint digits_value (acc : Z) (s : string) : option Z :=
  match s with
  | EmptyString => Some acc
  | String c s' =>
      let n := nat_of_ascii c in
      if (48 <=? n) && (n <=? 57)
      then digits_value (acc * 10 + Z.of_nat (n - 48)) s'
      else None
  end.

Definition to_numeric_digits (s : string) : float :=
  match s with
  | EmptyString => nan
  | _ => match digits_value 0 s with
         | Some z => to_float z
         | None => nan
         end
  end.

(** The five scenarios of the specification and a unit of unknown
    occupancy, as the inputs of one run. *)
Definition scenario_units : DataFrame :=
  {| columns := header ["Unit"; "Status"];
     values := [["U1"; "Vacant - Available"]; ["U2"; "Occupied - Tenant"];
                ["U3"; "Occupied - Tenant"]; ["U4"; "Vacant"];
                ["U5"; "Occupied - Tenant"]; ["U6"; "Unrentable"]] |}.

Definition scenario_rentroll : DataFrame :=
  {| columns := header ["Unit"; "Days Past Due"];
     values := [["U2"; "0"]; ["U3"; "45"]] |}.

Definition scenario_locks : DataFrame :=
  {| columns := header ["Unit Number"; "Status"];
     values := [["U1"; "Assigned Vacant"]; ["U2"; "Assigned Vacant"];
                ["U3"; "Assigned Overlock"]; ["U4"; "Tenant Using Lock"];
                ["U6"; "Assigned Vacant"]] |}.

(** ** The remaining methods of the analyzer *)

(** [get_miscompares]: the rows with a miscompare, once a run has set
    [master_df]. *)
Definition get_miscompares (self : Analyzer) : exn + list Master.row :=
  match master_df self with
  | None => inl (ValueError "No analysis results available. Run analysis first.")
  | Some df => inr (filter (λ r, Master.Is_Miscompare r = true) df)
  end.

(** A sheet handed to the Excel writer: a table, or the items of the
    summary dictionary. *)
Inductive sheet :=
| TableSheet (sheet_name : string) (rows : list Master.row)
| SummarySheet (sheet_name : string) (summary : Summary).

(** [save_results]: the sheets written to the workbook, in order. *)
Definition save_results (self : Analyzer) (include_summary : bool)
    : exn + list sheet :=
  match master_df self with
  | None => inl (ValueError "No analysis results to save. Run analysis first.")
  | Some df =>
      inr (TableSheet "Unit_Analysis" df
           :: (if include_summary then
                 SummarySheet "Summary" (generate_summary_report df)
                 :: (let miscompares :=
                       filter (λ r, Master.Is_Miscompare r = true) df in
                     match miscompares with
                     | _ :: _ => [TableSheet "Miscompares" miscompares]
                     | [] => []
                     end)
               else []))
  end.

(** ** The report generator ([src/report_generator.py]) *)

(** Rows of the alert report. [Priority] is [None] where pandas holds
    NaN. *)
Module Alert.
Record row := {
  Unit : string;
  Final_Status : string;
  Actual_Lock_Status : string;
  Expected_Lock_Status : string;
  Miscompare_Severity : string;
  Priority : option Z;
  Recommended_Action : string
}.
End Alert.

Definition priority_order : gmap string Z :=
  <["HIGH - Vacant unit with tenant lock" := 1%Z]>
    (<["HIGH - Current tenant without proper lock" := 2%Z]>
       (<["HIGH - Delinquent unit without lock" := 3%Z]>
          (<["MEDIUM - Lock status mismatch" := 4%Z]> ∅))).

Definition get_recommended_action (row : Master.row) : string :=
  let severity := Master.Miscompare_Severity row in
  if Py.contains "Vacant unit with tenant lock" severity
  then "Remove tenant lock and verify unit is truly vacant"
  else if Py.contains "Current tenant without proper lock" severity
  then "Install proper tenant lock immediately"
  else if Py.contains "Delinquent unit without lock" severity
  then "Install overlock or proceed to auction"
  else "Review lock assignment and correct as needed".

(** The order [sort_values('Priority')] puts two priorities in: ascending,
    NaN last. *)
Definition priority_le (p q : option Z) : Prop :=
  match p, q with
  | Some a, Some b => (a <= b)%Z
  | _, None => True
  | None, Some _ => False
  end.

Section Report.

(** [DataFrame.sort_values('Priority')] on the miscompare rows paired
    with their priority.  pandas sorts with a quicksort that need not
    keep the order of rows of equal priority, so the sort is a parameter;
    the properties below assume that it permutes its input and
    returns it ordered. *)
Variable sort_values : list (Master.row * option Z) -> list (Master.row * option Z).

Definition generate_alert_report (df : list Master.row) : list Alert.row :=
  let miscompares := filter (λ r, Master.Is_Miscompare r = true) df in
  match miscompares with
  | [] => []
  | _ :: _ =>
      let with_priority :=
        (λ r, (r, priority_order !! Master.Miscompare_Severity r)) <$> miscompares in
      (λ rp : Master.row * option Z,
         {| Alert.Unit := Master.Unit rp.1;
            Alert.Final_Status := Master.Final_Status rp.1;
            Alert.Actual_Lock_Status := Master.Actual_Lock_Status rp.1;
            Alert.Expected_Lock_Status := Master.Expected_Lock_Status rp.1;
            Alert.Miscompare_Severity := Master.Miscompare_Severity rp.1;
            Alert.Priority := rp.2;
            Alert.Recommended_Action := get_recommended_action rp.1 |})
        <$> sort_values with_priority
  end.

End Report.

(** [Series.str.contains(pat, na=False)] for a pattern without regular
    expression operators, then [len(df[...])]. *)
Definition count_contains (pat : string) (l : list string) : nat :=
  length (filter (λ s, Is_true (Py.contains pat s)) l).

(** The dictionary of [_create_summary_data], one field per key. *)
Record SummaryData := {
  Total_Units : nat;
  Total_Miscompares : Z;
  Miscompare_Rate : float;
  Vacant_Units : nat;
  Occupied_Current_Units : nat;
  Occupied_Delinquent_Units : nat;
  High_Severity_Miscompares : nat;
  Medium_Severity_Miscompares : nat
}.

Section SummaryData.

(** [round(x, 2)] on a float64 *)
Variable round2 : float -> float.

Definition _create_summary_data (df : list Master.row) : SummaryData :=
  let total_units := length df in
  let miscompare_count := sum_bool (Master.Is_Miscompare <$> df) in
  let miscompare_rate :=
    (to_float miscompare_count / to_float (Z.of_nat total_units) * 100)%float in
  {| Total_Units := total_units;
     Total_Miscompares := miscompare_count;
     Miscompare_Rate := round2 miscompare_rate;
     Vacant_Units :=
       length (filter (λ r, Master.Final_Status r = "Vacant") df);
     Occupied_Current_Units :=
       length (filter (λ r, Master.Final_Status r = "Occupied-Current") df);
     Occupied_Delinquent_Units :=
       length (filter (λ r, Master.Final_Status r = "Occupied-Delinquent") df);
     High_Severity_Miscompares :=
       count_contains "HIGH" (Master.Miscompare_Severity <$> df);
     Medium_Severity_Miscompares :=
       count_contains "MEDIUM" (Master.Miscompare_Severity <$> df) |}.

End SummaryData.

(** ** The console summary of [main_analyzer.py] *)

(** [d.get(k, 0)] on a dictionary of counts *)
Definition get0 (d : gmap string nat) (k : string) : nat := default 0 (d !! k).

(** The number printed after [High Severity Issues:]. *)
Definition high_severity_issues (summary : Summary) : nat :=
  get0 (severity_breakdown summary) "HIGH - Vacant unit with tenant lock"
  + get0 (severity_breakdown summary) "HIGH - Current tenant without proper lock"
  + get0 (severity_breakdown summary) "HIGH - Delinquent unit without lock".

(** ** Definitions for the statements *)

(** The value [get_final_status] returns; it never raises. *)
Definition resolved_status (rentroll_mapping : gmap string string)
    (row : Units.row) : string :=
  match (get_final_status rentroll_mapping row).1 with
  | inr s => s
  | inl _ => EmptyString
  end.

(** The row [determine_unit_status] makes of a row of [units_df]. *)
Definition with_status (m : gmap string string) (row : Units.row) : WithStatus.row :=
  {| WithStatus.Unit := Units.Unit row;
     WithStatus.Unit_Status := Units.Unit_Status row;
     WithStatus.Final_Status := resolved_status m row |}.

(** The closing check of [determine_unit_status]: rentroll units that
    the units table does not have. *)
Definition orphan_warning (u : list Units.row) (rr : list Rentroll.row)
    : list log_record :=
  let orphans : gset string :=
    list_to_set (Rentroll.Unit <$> rr) ∖ list_to_set (Units.Unit <$> u) in
  if decide (orphans = ∅) then [] else [RentrollNotInUnits orphans].

(** The row [load_units_file] makes of a raw row. *)
Definition normalise_unit (cols : list label) (r : list string) : Units.row :=
  let status := cell cols r "Status" in
  let status_clean := Py.upper (Py.slice_to 3 status) in
  {| Units.Unit := Py.strip (cell cols r "Unit");
     Units.Status := status;
     Units.Status_Clean := status_clean;
     Units.Unit_Status := Some (default "Unknown" (status_mapping !! status_clean)) |}.

(** The unit identifiers of the units input, trimmed, in input order. *)
Definition unit_ids (units_file : DataFrame) : list string :=
  (λ raw, Py.strip (cell (columns units_file) raw "Unit")) <$> values units_file.

(** The rows of the table for one unit identifier. *)
Definition rows_of (u : string) (table : list Master.row) : list Master.row :=
  filter (λ r, Master.Unit r = u) table.

(** The specification's wording of the table invariant: exactly one row
    for each unit identifier seen in the units input. *)
Definition one_row_per_unit_id (units_file : DataFrame)
    (table : list Master.row) : Prop :=
  ∀ u, u ∈ unit_ids units_file -> length (rows_of u table) = 1.

(** The specification's wording of the tolerance on column names: two
    names are equivalent when they agree up to surrounding whitespace,
    surrounding double quotes and the case of letters. *)
Definition equivalent_column (required col : string) : bool :=
  bool_decide
    (Py.lower (Py.strip (Py.strip_char (ascii_of_nat 34) (Py.strip col)))
     = Py.lower required).

(** Every required column has an equivalent column in the header. *)
Definition has_equivalents (required_cols : list string) (df : DataFrame) : bool :=
  forallb
    (λ required,
       existsb (λ c, match c with
                     | StrLabel col => equivalent_column required col
                     | OtherLabel _ => false
                     end)
         (columns df))
    required_cols.

(** ** Example data *)

(** The run on the scenarios, and its table. *)
Definition scenario_run : Analyzer * Res (list Master.row) :=
  run_analysis to_numeric_digits init scenario_units scenario_rentroll scenario_locks.

Definition scenario_table : list Master.row :=
  match scenario_run.2.1 with
  | inr table => table
  | inl _ => []
  end.

(** A units input where two rows carry the same identifier once trimmed. *)
Definition duplicate_units : DataFrame :=
  {| columns := header ["Unit"; "Status"];
     values := [["A1 "; "Vacant"]; [" A1"; "Occupied"]; ["A2"; "Vacant"]] |}.

(** Headers that differ from the required names in case, in surrounding
    whitespace or in quoting. *)
Definition units_upper_header : DataFrame :=
  {| columns := header ["UNIT"; "Status"]; values := [["A1"; "Vacant"]] |}.

Definition rentroll_padded_header : DataFrame :=
  {| columns := header [" Unit"; "Days past due"]; values := [["A1"; "3"]] |}.

(** The no-break space U+00A0 and the ideographic space U+3000, in
    UTF-8. *)
Definition nbsp : string :=
  String (ascii_of_nat 194) (String (ascii_of_nat 160) EmptyString).

Definition ideographic_space : string :=
  String (ascii_of_nat 227)
    (String (ascii_of_nat 128) (String (ascii_of_nat 128) EmptyString)).

(** A units table whose two rows name the same unit, once with a
    no-break space after it. *)
Definition units_nbsp : DataFrame :=
  {| columns := header ["Unit"; "Status"];
     values := [["A1" +:+ nbsp; "Vacant"]; ["A1"; "Occupied"]] |}.

(** A spreadsheet of locks whose third header cell is the number 2024:
    [read_excel] gives the label as an [int]. *)
Definition locks_number_label : DataFrame :=
  {| columns := [StrLabel "Unit Number"; StrLabel "Status"; OtherLabel "int"];
     values := [["A1"; " Assigned Vacant"; "nan"]] |}.

Definition locks_lower_header : DataFrame :=
  {| columns := header ["unit number"; quoted "Status"];
     values := [["A1"; "Assigned Vacant"]] |}.

(** The rows of the scenario units as loaded. *)
Definition scenario_units_rows : list Units.row :=
  match (load_units_file scenario_units).1 with
  | inr u => u
  | inl _ => []
  end.

(** A rentroll table with an upper-case and a quoted column name and a
    row whose days past due are not a number, and its rows as loaded. *)
Definition rentroll_quoted_header : DataFrame :=
  {| columns := header ["UNIT"; quoted "Days Past Due"];
     values := [["U1"; "n/a"]; ["U2"; "12"]] |}.

Definition rentroll_quoted_rows : list Rentroll.row :=
  match (load_rentroll_file to_numeric_digits rentroll_quoted_header).1 with
  | inr rr => rr
  | inl _ => []
  end.

(** An occupied unit of the units table, and a rentroll row of another
    unit. *)
Definition occupied_u5 : Units.row :=
  {| Units.Unit := "U5";
     Units.Status := "Occupied - Tenant";
     Units.Status_Clean := "OCC";
     Units.Unit_Status := Some "Occupied" |}.

Definition rentroll_u2 : Rentroll.row :=
  {| Rentroll.Unit := "U2";
     Rentroll.Days_Past_Due_Clean := 0;
     Rentroll.Payment_Status := "Current" |}.

(** A delinquent unit after status resolution, and a locks table that
    does not list it. *)
Definition delinquent_resolved : WithStatus.row :=
  {| WithStatus.Unit := "U8";
     WithStatus.Unit_Status := Some "Occupied";
     WithStatus.Final_Status := "Occupied-Delinquent" |}.

Definition one_lock : list Locks.row :=
  [{| Locks.Unit := "U1"; Locks.Lock_Status := "Assigned Vacant" |}].

(** Rows with their lock status: a delinquent unit with an overlock, a
    delinquent unit with a vacant lock, a unit of unknown status. *)
Definition delinquent_overlocked : WithLocks.row :=
  {| WithLocks.Unit := "U3";
     WithLocks.Unit_Status := Some "Occupied";
     WithLocks.Final_Status := "Occupied-Delinquent";
     WithLocks.Actual_Lock_Status := "Assigned Overlock";
     WithLocks.Expected_Lock_Status := "Assigned Overlock or Assigned Auction" |}.

Definition delinquent_unlocked : WithLocks.row :=
  {| WithLocks.Unit := "U7";
     WithLocks.Unit_Status := Some "Occupied";
     WithLocks.Final_Status := "Occupied-Delinquent";
     WithLocks.Actual_Lock_Status := "Assigned Vacant";
     WithLocks.Expected_Lock_Status := "Assigned Overlock or Assigned Auction" |}.

Definition unknown_locked : WithLocks.row :=
  {| WithLocks.Unit := "U9";
     WithLocks.Unit_Status := Some "Unknown";
     WithLocks.Final_Status := "Unknown";
     WithLocks.Actual_Lock_Status := "Tenant Using Lock";
     WithLocks.Expected_Lock_Status := "Unknown" |}.

(** A sort for the examples: merge sort by priority. *)
Definition by_priority (a b : Master.row * option Z) : Prop :=
  priority_le a.2 b.2.

#[global] Instance priority_le_dec (p q : option Z) : Decision (priority_le p q).
Proof. destruct p, q; simpl; apply _. Defined.

#[global] Instance by_priority_dec (a b : Master.row * option Z) :
  Decision (by_priority a b).
Proof. unfold by_priority. apply _. Defined.

Definition sort_by_priority
    : list (Master.row * option Z) -> list (Master.row * option Z) :=
  merge_sort by_priority.

(** ** Proof automation *)

(** Membership in a list given by its elements: one case per element. *)
Ltac split_mem :=
  repeat match goal with
    | H : _ ∈ _ :: _ |- _ => apply elem_of_cons in H as [H | H]
    | H : _ ∈ [] |- _ => apply elem_of_nil in H; destruct H
    end.

(** * Properties *)

(** ** The monad [Res] and [apply_rows] *)

Lemma bind_inr {A B} (m : Res A) (k : A -> Res B) (b : B) (l : list log_record) :
  bind m k = (inr b, l) ->
  ∃ a l1 l2, m = (inr a, l1) ∧ k a = (inr b, l2) ∧ l = l1 ++ l2.
Proof.
  unfold bind. destruct m as [[e | a] l1]; [discriminate |].
  destruct (k a) as [r l2] eqn:Hk. intros [= -> <-]. exists a, l1, l2. auto.
Qed.

Lemma try_reraise_inr {A} (m : Res A) (h : exn -> log_record) (a : A)
    (l : list log_record) :
  try_reraise m h = (inr a, l) -> m = (inr a, l).
Proof. destruct m as [[e | a'] l']; simpl; congruence. Qed.

(** When [f] never raises, [apply_rows f] returns the column of its
    values and the log records of the rows, in row order. *)
Lemma apply_rows_total {A B} (f : A -> Res B) (g : A -> B) (rows : list A) :
  (∀ r, (f r).1 = inr (g r)) ->
  apply_rows f rows = (inr (g <$> rows), concat ((λ r, (f r).2) <$> rows)).
Proof.
  intros Hf. induction rows as [| r rows IH]; [reflexivity |].
  simpl. specialize (Hf r). destruct (f r) as [v l] eqn:Hfr. simpl in Hf. subst v.
  unfold bind at 1. rewrite IH. simpl. rewrite app_nil_r. reflexivity.
Qed.

(** ** Dictionaries built from a table *)

Lemma to_dict_acc_None {A} (key value : A -> string) (rows : list A)
    (m : gmap string string) (k : string) :
  foldl (λ m r, <[key r := value r]> m) m rows !! k = None
  ↔ m !! k = None ∧ k ∉ key <$> rows.
Proof.
  revert m. induction rows as [| r rows IH]; intros m; simpl.
  - split; [intros H; split; [exact H | apply not_elem_of_nil] | tauto].
  - rewrite IH, not_elem_of_cons, lookup_insert_None.
    split; [intros [[H1 H2] H3] | intros [H1 [H2 H3]]]; auto.
Qed.

Lemma to_dict_None {A} (key value : A -> string) (rows : list A) (k : string) :
  to_dict key value rows !! k = None ↔ k ∉ key <$> rows.
Proof.
  unfold to_dict. rewrite to_dict_acc_None, lookup_empty. tauto.
Qed.

(** ** Status resolution *)

Lemma get_final_status_returns (m : gmap string string) (row : Units.row) :
  (get_final_status m row).1 = inr (resolved_status m row).
Proof.
  unfold resolved_status, get_final_status.
  repeat case_decide; try reflexivity.
  destruct (m !! Units.Unit row); reflexivity.
Qed.

Lemma resolve_row (m : gmap string string) (r : Units.row) :
  (do final_status <- get_final_status m r;
   ret {| WithStatus.Unit := Units.Unit r;
          WithStatus.Unit_Status := Units.Unit_Status r;
          WithStatus.Final_Status := final_status |})
  = (inr (with_status m r), (get_final_status m r).2).
Proof.
  unfold bind, with_status.
  pose proof (get_final_status_returns m r) as H.
  destruct (get_final_status m r) as [v l]. simpl in H. subst v.
  simpl. rewrite app_nil_r. reflexivity.
Qed.

Lemma determine_unit_status_returns (u : list Units.row) (rr : list Rentroll.row) :
  let m := to_dict Rentroll.Unit Rentroll.Payment_Status rr in
  determine_unit_status u rr
  = (inr (with_status m <$> u),
     concat ((λ row, (get_final_status m row).2) <$> u) ++ orphan_warning u rr).
Proof.
  intros m. unfold determine_unit_status, orphan_warning. fold m.
  rewrite (apply_rows_total _ (with_status m))
    by (intros r; rewrite resolve_row; reflexivity).
  rewrite (list_fmap_ext _ (λ row, (get_final_status m row).2) u)
    by (intros i r _; rewrite resolve_row; reflexivity).
  unfold bind at 1.
  case_decide; simpl; rewrite ?app_nil_r; reflexivity.
Qed.

(** ** What the loaders return *)

Lemma load_units_file_inr (df : DataFrame) (u : list Units.row)
    (l : list log_record) :
  load_units_file df = (inr u, l) ->
  u = normalise_unit (columns df) <$> values df.
Proof.
  unfold load_units_file. intros H. apply try_reraise_inr in H.
  destruct (missing_from (columns df) ["Unit"; "Status"]); [| discriminate].
  match type of H with
  | context [filter ?P ?rows] => destruct (filter P rows) eqn:Hf
  end.
  - injection H as <- _.
    apply list_fmap_ext. intros i r Hr. unfold normalise_unit.
    f_equal.
    destruct (status_mapping !! Py.upper (Py.slice_to 3 (cell (columns df) r "Status")))
      as [v |] eqn:Hm; [reflexivity |].
    exfalso.
    eapply (filter_nil_not_elem_of _ _ _ Hf); [| apply list_elem_of_fmap_2,
      list_elem_of_lookup_2 with i; exact Hr].
    simpl. exact Hm.
  - unfold bind, log, ret in H. injection H as <- _.
    rewrite <- list_fmap_compose. reflexivity.
Qed.

(** The status code table has two entries. *)
Lemma status_mapping_lookup (code : string) :
  status_mapping !! code
  = if decide (code = "OCC") then Some "Occupied"
    else if decide (code = "VAC") then Some "Vacant"
    else None.
Proof.
  unfold status_mapping.
  repeat case_decide; subst; simplify_map_eq; reflexivity.
Qed.

(** ** What a successful run computes *)

Lemma step_inr {A B} (self self' : Analyzer) (m : Res A)
    (k : A -> Analyzer * Res B) (b : B) (l : list log_record) :
  step self m k = (self', (inr b, l)) ->
  ∃ a l1 l2, m = (inr a, l1) ∧ k a = (self', (inr b, l2)) ∧ l = l1 ++ l2.
Proof.
  unfold step. destruct m as [[e | a] l1]; [discriminate |].
  destruct (k a) as [s [r l2]] eqn:Hk. intros [= -> -> <-].
  exists a, l1, l2. auto.
Qed.

Lemma run_analysis_inr (to_numeric : string -> float) (self self' : Analyzer)
    (units_file rentroll_file locks_file : DataFrame)
    (table : list Master.row) (l : list log_record) :
  run_analysis to_numeric self units_file rentroll_file locks_file
  = (self', (inr table, l)) ->
  ∃ rr lk lu lr ll ld,
    load_units_file units_file
    = (inr (normalise_unit (columns units_file) <$> values units_file), lu) ∧
    load_rentroll_file to_numeric rentroll_file = (inr rr, lr) ∧
    load_locks_file locks_file = (inr lk, ll) ∧
    determine_unit_status
      (normalise_unit (columns units_file) <$> values units_file) rr
    = (inr (with_status (to_dict Rentroll.Unit Rentroll.Payment_Status rr)
              <$> (normalise_unit (columns units_file) <$> values units_file)), ld) ∧
    l = lu ++ lr ++ ll ++ ld ∧
    table =
      detect_miscompares
        (add_lock_status
           (with_status (to_dict Rentroll.Unit Rentroll.Payment_Status rr)
              <$> (normalise_unit (columns units_file) <$> values units_file))
           lk).
Proof.
  unfold run_analysis. intros H.
  destruct (step self (load_units_file units_file) _) as [s r] eqn:Hx.
  injection H as -> H. apply try_reraise_inr in H. subst r.
  apply step_inr in Hx as (u & lu & l2 & Hu & Hx & ->).
  apply step_inr in Hx as (rr & lr & l3 & Hr & Hx & ->).
  apply step_inr in Hx as (lk & ll & l4 & Hl & Hx & ->).
  apply step_inr in Hx as (ws & ld & l5 & Hd & Hx & ->).
  injection Hx as _ <- <-.
  pose proof (load_units_file_inr _ _ _ Hu) as ->.
  pose proof (determine_unit_status_returns
                (normalise_unit (columns units_file) <$> values units_file) rr)
    as Hd'.
  simpl in Hd'. rewrite Hd in Hd'. injection Hd' as -> ->.
  exists rr, lk, lu, lr, ll. eexists.
  split_and!; [exact Hu | exact Hr | exact Hl | exact Hd | | reflexivity].
  rewrite app_nil_r. reflexivity.
Qed.

(** ** Rows of the master table *)

Lemma elem_of_detect_miscompares (df : list WithLocks.row) (r : Master.row) :
  r ∈ detect_miscompares df ↔ ∃ row, row ∈ df ∧ r = grade (flag row).
Proof.
  unfold detect_miscompares. rewrite <- list_fmap_compose, list_elem_of_fmap.
  split; intros (row & H1 & H2); exists row; auto.
Qed.

Lemma detect_miscompares_lookup (df : list WithLocks.row) (i : nat) :
  detect_miscompares df !! i = (λ row, grade (flag row)) <$> (df !! i).
Proof.
  unfold detect_miscompares.
  rewrite <- list_fmap_compose, list_lookup_fmap. reflexivity.
Qed.

(** ** Miscompare detection *)

(** C2: in the master table, a row whose final status is
    Occupied-Delinquent is not a miscompare exactly when its actual lock
    status is "Assigned Overlock" or "Assigned Auction". *)
Theorem delinquent_compliant_iff (df : list WithLocks.row) (r : Master.row) :
  r ∈ detect_miscompares df ->
  Master.Final_Status r = "Occupied-Delinquent" ->
  (Master.Is_Miscompare r = false
   ↔ Master.Actual_Lock_Status r ∈ ["Assigned Overlock"; "Assigned Auction"]).
Proof.
  intros (row & _ & ->)%elem_of_detect_miscompares Hf. simpl in *.
  unfold is_miscompare. rewrite decide_True by exact Hf.
  unfold py_in. rewrite negb_false_iff, bool_decide_eq_true. reflexivity.
Qed.

Lemma delinquent_compliant_iff_witness :
  Master.Is_Miscompare (grade (flag delinquent_overlocked)) = false
  ↔ Master.Actual_Lock_Status (grade (flag delinquent_overlocked))
    ∈ ["Assigned Overlock"; "Assigned Auction"].
Proof.
  apply (delinquent_compliant_iff [delinquent_unlocked; delinquent_overlocked]).
  - right. left.
  - reflexivity.
Defined.

(** C3: the severity of a row flagged as a miscompare follows the first
    matching rule: Vacant with a tenant lock or an overlock; then
    Occupied-Current with a vacant lock or an overlock; then
    Occupied-Delinquent with a vacant lock; every other miscompare is
    MEDIUM. *)
Theorem severity_first_matching_rule (df : list WithLocks.row) (r : Master.row) :
  r ∈ detect_miscompares df ->
  Master.Is_Miscompare r = true ->
  let final_status := Master.Final_Status r in
  let actual := Master.Actual_Lock_Status r in
  let rule1 := final_status = "Vacant"
               ∧ actual ∈ ["Tenant Using Lock"; "Assigned Overlock"] in
  let rule2 := final_status = "Occupied-Current"
               ∧ actual ∈ ["Assigned Vacant"; "Assigned Overlock"] in
  let rule3 := final_status = "Occupied-Delinquent" ∧ actual = "Assigned Vacant" in
  (rule1 -> Master.Miscompare_Severity r = "HIGH - Vacant unit with tenant lock")
  ∧ (rule2 ->
     Master.Miscompare_Severity r = "HIGH - Current tenant without proper lock")
  ∧ (rule3 -> Master.Miscompare_Severity r = "HIGH - Delinquent unit without lock")
  ∧ (¬ rule1 -> ¬ rule2 -> ¬ rule3 ->
     Master.Miscompare_Severity r = "MEDIUM - Lock status mismatch").
Proof.
  intros (row & _ & ->)%elem_of_detect_miscompares Hm. simpl in *.
  unfold get_miscompare_severity, py_in. simpl. rewrite Hm. simpl.
  split_and!.
  - intros [-> Ha]. rewrite (bool_decide_eq_true_2 _ Ha). reflexivity.
  - intros [-> Ha]. rewrite (bool_decide_eq_true_2 _ Ha). reflexivity.
  - intros [-> ->]. reflexivity.
  - intros H1 H2 H3.
    repeat case_bool_decide; simpl; try reflexivity; tauto.
Qed.

Lemma severity_first_matching_rule_witness :
  Master.Miscompare_Severity (grade (flag delinquent_unlocked))
  = "HIGH - Delinquent unit without lock".
Proof.
  apply (severity_first_matching_rule [delinquent_unlocked; delinquent_overlocked]).
  - left.
  - reflexivity.
  - split; reflexivity.
Defined.

(** C6: a row whose final status is Unknown is never a miscompare,
    whatever its actual lock status. *)
Theorem unknown_never_miscompare (df : list WithLocks.row) (r : Master.row) :
  r ∈ detect_miscompares df ->
  Master.Final_Status r = "Unknown" ->
  Master.Is_Miscompare r = false.
Proof.
  intros (row & _ & ->)%elem_of_detect_miscompares Hf. simpl in *.
  unfold is_miscompare. rewrite Hf. reflexivity.
Qed.

Lemma unknown_never_miscompare_witness :
  Master.Is_Miscompare (grade (flag unknown_locked)) = false.
Proof.
  apply (unknown_never_miscompare [unknown_locked]).
  - left.
  - reflexivity.
Defined.

(** ** Units without a recognised lock status *)

Lemma elem_of_add_lock_status (ws : list WithStatus.row) (lk : list Locks.row)
    (row : WithLocks.row) :
  row ∈ add_lock_status ws lk ->
  ∃ w, w ∈ ws
       ∧ WithLocks.Unit row = WithStatus.Unit w
       ∧ WithLocks.Unit_Status row = WithStatus.Unit_Status w
       ∧ WithLocks.Final_Status row = WithStatus.Final_Status w
       ∧ WithLocks.Actual_Lock_Status row
         = default "No Lock Assigned"
             (to_dict Locks.Unit Locks.Lock_Status lk !! WithStatus.Unit w)
       ∧ WithLocks.Expected_Lock_Status row
         = get_expected_lock_status (WithStatus.Final_Status w).
Proof.
  unfold add_lock_status. intros (w & -> & Hw)%list_elem_of_fmap.
  exists w. simpl. auto 10.
Qed.

Lemma no_lock_assigned_not_valid : "No Lock Assigned" ∉ valid_lock_statuses.
Proof. unfold valid_lock_statuses. intros H. split_mem; discriminate H. Qed.

(** C10: a unit whose final status is Vacant, Occupied-Current or
    Occupied-Delinquent and whose actual lock status is outside the four
    recognised values, which includes the default "No Lock Assigned" of a
    unit absent from the locks table, is a miscompare of severity
    "MEDIUM - Lock status mismatch". *)
Theorem unrecognised_lock_is_medium (ws : list WithStatus.row)
    (lk : list Locks.row) (r : Master.row) :
  r ∈ detect_miscompares (add_lock_status ws lk) ->
  Master.Final_Status r ∈ ["Vacant"; "Occupied-Current"; "Occupied-Delinquent"] ->
  Master.Actual_Lock_Status r ∉ valid_lock_statuses
  ∨ Master.Unit r ∉ Locks.Unit <$> lk ->
  (Master.Unit r ∉ Locks.Unit <$> lk ->
   Master.Actual_Lock_Status r = "No Lock Assigned")
  ∧ Master.Is_Miscompare r = true
  ∧ Master.Miscompare_Severity r = "MEDIUM - Lock status mismatch".
Proof.
  intros (row & Hrow & ->)%elem_of_detect_miscompares Hf Ha. simpl in *.
  apply elem_of_add_lock_status in Hrow
    as (w & _ & Hu & _ & _ & Hact & _).
  assert (Habs : WithLocks.Unit row ∉ Locks.Unit <$> lk ->
                 WithLocks.Actual_Lock_Status row = "No Lock Assigned").
  { intros Hn. rewrite Hact, <- Hu.
    apply (to_dict_None Locks.Unit Locks.Lock_Status) in Hn. rewrite Hn. reflexivity. }
  assert (Hout : WithLocks.Actual_Lock_Status row ∉ valid_lock_statuses).
  { destruct Ha as [Ha | Ha]; [exact Ha |].
    rewrite (Habs Ha). apply no_lock_assigned_not_valid. }
  split; [exact Habs |].
  unfold valid_lock_statuses in Hout.
  repeat (apply not_elem_of_cons in Hout as [? Hout]).
  assert (Hm : is_miscompare row = true).
  { unfold is_miscompare, py_in.
    split_mem; rewrite Hf; simpl;
      repeat case_bool_decide; simpl; try reflexivity; split_mem; congruence. }
  split; [exact Hm |].
  unfold get_miscompare_severity, py_in. simpl. rewrite Hm. simpl.
  split_mem; rewrite Hf; simpl;
    repeat case_bool_decide; simpl; try reflexivity; split_mem; congruence.
Qed.

Lemma unrecognised_lock_is_medium_witness :
  Master.Is_Miscompare
    (grade (flag {| WithLocks.Unit := "U8";
                    WithLocks.Unit_Status := Some "Occupied";
                    WithLocks.Final_Status := "Occupied-Delinquent";
                    WithLocks.Actual_Lock_Status := "No Lock Assigned";
                    WithLocks.Expected_Lock_Status :=
                      "Assigned Overlock or Assigned Auction" |})) = true
  ∧ Master.Miscompare_Severity
      (grade (flag {| WithLocks.Unit := "U8";
                      WithLocks.Unit_Status := Some "Occupied";
                      WithLocks.Final_Status := "Occupied-Delinquent";
                      WithLocks.Actual_Lock_Status := "No Lock Assigned";
                      WithLocks.Expected_Lock_Status :=
                        "Assigned Overlock or Assigned Auction" |}))
    = "MEDIUM - Lock status mismatch".
Proof.
  apply (unrecognised_lock_is_medium [delinquent_resolved] one_lock).
  - left.
  - right. right. left.
  - right. simpl. intros H. split_mem. discriminate H.
Defined.

(** ** Occupied units without a rentroll entry *)

Lemma elem_of_concat {A} (ls : list (list A)) (x : A) :
  x ∈ concat ls ↔ ∃ l, l ∈ ls ∧ x ∈ l.
Proof.
  induction ls as [| l ls IH]; simpl.
  - split; [intros H; by apply elem_of_nil in H |].
    intros (l & H & _). by apply elem_of_nil in H.
  - rewrite elem_of_app, IH. split.
    + intros [H | (l' & H1 & H2)].
      * exists l. split; [left | exact H].
      * exists l'. split; [right; exact H1 | exact H2].
    + intros (l' & H1 & H2). apply elem_of_cons in H1 as [-> | H1].
      * left. exact H2.
      * right. exists l'. auto.
Qed.

Lemma get_final_status_fallback (m : gmap string string) (row : Units.row) :
  Units.Unit_Status row = Some "Occupied" ->
  m !! Units.Unit row = None ->
  get_final_status m row = (inr "Vacant", [OccupiedNotInRentroll (Units.Unit row)]).
Proof.
  intros Hs Hm. unfold get_final_status. rewrite Hs, Hm.
  rewrite decide_False by discriminate.
  rewrite decide_True by reflexivity. reflexivity.
Qed.

(** [get_final_status] logs warnings only. *)
Lemma get_final_status_warns (m : gmap string string) (row : Units.row)
    (x : log_record) :
  x ∈ (get_final_status m row).2 -> levelno x = WARNING.
Proof.
  unfold get_final_status.
  repeat case_decide; simpl; try (intros Hx; by apply elem_of_nil in Hx).
  destruct (m !! Units.Unit row); simpl; intros Hx; split_mem.
  subst x. reflexivity.
Qed.

Lemma determine_unit_status_warns (u : list Units.row) (rr : list Rentroll.row)
    (x : log_record) :
  x ∈ (determine_unit_status u rr).2 -> levelno x = WARNING.
Proof.
  rewrite determine_unit_status_returns. simpl.
  rewrite elem_of_app, elem_of_concat. intros [(l & Hl & Hx) | Hx].
  - apply list_elem_of_fmap in Hl as (row & -> & _).
    eapply get_final_status_warns, Hx.
  - unfold orphan_warning in Hx. case_decide; split_mem. subst x. reflexivity.
Qed.

(** C5: a unit that is Occupied in the units table and has no row in the
    rentroll gets the final status Vacant; the resolver returns (it does
    not raise), it logs the fallback as a warning and logs no error; and
    the row is then compared with the expectation of a vacant unit: it is
    a miscompare exactly when its lock status is not "Assigned Vacant". *)
Theorem occupied_without_rentroll_is_vacant (units_df : list Units.row)
    (rentroll_df : list Rentroll.row) (locks_df : list Locks.row)
    (i : nat) (row : Units.row) :
  units_df !! i = Some row ->
  Units.Unit_Status row = Some "Occupied" ->
  Units.Unit row ∉ Rentroll.Unit <$> rentroll_df ->
  ∃ ws logs r,
    determine_unit_status units_df rentroll_df = (inr ws, logs)
    ∧ OccupiedNotInRentroll (Units.Unit row) ∈ logs
    ∧ (∀ x, x ∈ logs -> levelno x = WARNING)
    ∧ detect_miscompares (add_lock_status ws locks_df) !! i = Some r
    ∧ Master.Unit r = Units.Unit row
    ∧ Master.Final_Status r = "Vacant"
    ∧ Master.Expected_Lock_Status r = "Assigned Vacant"
    ∧ (Master.Is_Miscompare r = true
       ↔ Master.Actual_Lock_Status r ≠ "Assigned Vacant").
Proof.
  intros Hi Hs Hn.
  apply (to_dict_None Rentroll.Unit Rentroll.Payment_Status) in Hn.
  pose proof (get_final_status_fallback _ _ Hs Hn) as Hg.
  pose proof (determine_unit_status_returns units_df rentroll_df) as Hd.
  simpl in Hd.
  set (m := to_dict Rentroll.Unit Rentroll.Payment_Status rentroll_df) in *.
  eexists _, _, _. split; [exact Hd |].
  split_and!.
  - apply elem_of_app. left. apply elem_of_concat.
    exists [OccupiedNotInRentroll (Units.Unit row)]. split; [| left].
    apply list_elem_of_fmap. exists row. rewrite Hg. split; [reflexivity |].
    eapply list_elem_of_lookup_2, Hi.
  - intros x Hx. apply (determine_unit_status_warns units_df rentroll_df).
    rewrite Hd. exact Hx.
  - rewrite detect_miscompares_lookup. unfold add_lock_status.
    rewrite !list_lookup_fmap, Hi. reflexivity.
  - reflexivity.
  - simpl. unfold resolved_status. rewrite Hg. reflexivity.
  - simpl. unfold resolved_status. rewrite Hg. reflexivity.
  - simpl. unfold is_miscompare. simpl. unfold resolved_status. rewrite Hg. simpl.
    apply bool_decide_eq_true.
Qed.

Lemma occupied_without_rentroll_is_vacant_witness :
  ∃ ws logs r,
    determine_unit_status [occupied_u5] [rentroll_u2] = (inr ws, logs)
    ∧ OccupiedNotInRentroll "U5" ∈ logs
    ∧ (∀ x, x ∈ logs -> levelno x = WARNING)
    ∧ detect_miscompares (add_lock_status ws one_lock) !! 0 = Some r
    ∧ Master.Unit r = "U5"
    ∧ Master.Final_Status r = "Vacant"
    ∧ Master.Expected_Lock_Status r = "Assigned Vacant"
    ∧ (Master.Is_Miscompare r = true
       ↔ Master.Actual_Lock_Status r ≠ "Assigned Vacant").
Proof.
  apply (occupied_without_rentroll_is_vacant [occupied_u5] [rentroll_u2] one_lock
           0 occupied_u5).
  - reflexivity.
  - reflexivity.
  - simpl. intros H. split_mem. discriminate H.
Defined.

(** ** Unknown status and unknown occupancy *)

Lemma resolved_status_unknown (m : gmap string string) (row : Units.row) :
  Units.Unit_Status row ∈ [Some "Occupied"; Some "Vacant"; Some "Unknown"] ->
  (resolved_status m row = "Unknown" ↔ Units.Unit_Status row = Some "Unknown").
Proof.
  intros H. unfold resolved_status, get_final_status.
  split_mem; rewrite H; simpl.
  - destruct (m !! Units.Unit row); simpl; split; discriminate.
  - split; discriminate.
  - split; reflexivity.
Qed.

Lemma normalise_unit_status (cols : list label) (raw : list string) :
  let code := Py.upper (Py.slice_to 3 (cell cols raw "Status")) in
  Units.Unit_Status (normalise_unit cols raw)
  ∈ [Some "Occupied"; Some "Vacant"; Some "Unknown"]
  ∧ (Units.Unit_Status (normalise_unit cols raw) = Some "Unknown"
     ↔ code ≠ "OCC" ∧ code ≠ "VAC").
Proof.
  intros code. unfold normalise_unit. simpl. fold code.
  rewrite status_mapping_lookup.
  repeat case_decide; simpl.
  - split; [left |]. split; [discriminate | tauto].
  - split; [right; left |]. split; [discriminate | tauto].
  - split; [right; right; left |]. tauto.
Qed.

(** The master row computed from a raw row of the units input. *)
Lemma run_analysis_lookup (to_numeric : string -> float) (self self' : Analyzer)
    (units_file rentroll_file locks_file : DataFrame)
    (table : list Master.row) (l : list log_record) (i : nat) :
  run_analysis to_numeric self units_file rentroll_file locks_file
  = (self', (inr table, l)) ->
  ∃ m,
    ∀ raw, values units_file !! i = Some raw ->
    ∃ r, table !! i = Some r
         ∧ Master.Unit r = Py.strip (cell (columns units_file) raw "Unit")
         ∧ Master.Unit_Status r
           = Units.Unit_Status (normalise_unit (columns units_file) raw)
         ∧ Master.Final_Status r
           = resolved_status m (normalise_unit (columns units_file) raw).
Proof.
  intros H. apply run_analysis_inr in H
    as (rr & lk & lu & lr & ll & ld & _ & _ & _ & _ & _ & ->).
  exists (to_dict Rentroll.Unit Rentroll.Payment_Status rr).
  intros raw Hraw.
  rewrite detect_miscompares_lookup. unfold add_lock_status.
  rewrite !list_lookup_fmap, Hraw. simpl. eexists. split; [reflexivity |].
  simpl. auto.
Qed.

Lemma run_analysis_length (to_numeric : string -> float) (self self' : Analyzer)
    (units_file rentroll_file locks_file : DataFrame)
    (table : list Master.row) (l : list log_record) :
  run_analysis to_numeric self units_file rentroll_file locks_file
  = (self', (inr table, l)) ->
  length table = length (values units_file).
Proof.
  intros H. apply run_analysis_inr in H
    as (rr & lk & lu & lr & ll & ld & _ & _ & _ & _ & _ & ->).
  unfold detect_miscompares, add_lock_status. rewrite !length_fmap. reflexivity.
Qed.

(** C7: in the table of a run, the final status of a row is Unknown
    exactly when its occupancy is Unknown, that is, exactly when the first
    three characters of its raw status, in upper case, are neither "OCC"
    nor "VAC".  The table has one row per row of the units input, so every
    row of the table is covered. *)
Theorem unknown_status_iff_unknown_occupancy (to_numeric : string -> float)
    (self self' : Analyzer) (units_file rentroll_file locks_file : DataFrame)
    (table : list Master.row) (l : list log_record) :
  run_analysis to_numeric self units_file rentroll_file locks_file
  = (self', (inr table, l)) ->
  length table = length (values units_file)
  ∧ ∀ i raw, values units_file !! i = Some raw ->
      ∃ r, table !! i = Some r
           ∧ let code :=
               Py.upper (Py.slice_to 3 (cell (columns units_file) raw "Status")) in
             (Master.Final_Status r = "Unknown"
              ↔ Master.Unit_Status r = Some "Unknown")
             ∧ (Master.Unit_Status r = Some "Unknown"
                ↔ code ≠ "OCC" ∧ code ≠ "VAC").
Proof.
  intros H. split; [eapply run_analysis_length, H |].
  intros i raw Hraw.
  destruct (run_analysis_lookup _ _ _ _ _ _ _ _ i H) as [m Hm].
  destruct (Hm raw Hraw) as (r & Hr & _ & Hocc & Hfin).
  exists r. split; [exact Hr |].
  destruct (normalise_unit_status (columns units_file) raw) as [Hin Hcode].
  rewrite Hfin, Hocc. split.
  - apply resolved_status_unknown, Hin.
  - exact Hcode.
Qed.

Lemma unknown_status_iff_unknown_occupancy_witness :
  length scenario_table = length (values scenario_units)
  ∧ ∀ i raw, values scenario_units !! i = Some raw ->
      ∃ r, scenario_table !! i = Some r
           ∧ let code :=
               Py.upper (Py.slice_to 3 (cell (columns scenario_units) raw "Status")) in
             (Master.Final_Status r = "Unknown"
              ↔ Master.Unit_Status r = Some "Unknown")
             ∧ (Master.Unit_Status r = Some "Unknown"
                ↔ code ≠ "OCC" ∧ code ≠ "VAC").
Proof.
  apply (unknown_status_iff_unknown_occupancy to_numeric_digits init
           scenario_run.1 scenario_units scenario_rentroll scenario_locks
           scenario_table scenario_run.2.2).
  vm_compute. reflexivity.
Defined.

(** ** Rows of the table and unit identifiers *)

Lemma length_filter_fmap {A} (f : A -> string) (u : string) (l : list A) :
  length (filter (λ r, f r = u) l) = length (filter (λ x, x = u) (f <$> l)).
Proof.
  induction l as [| a l IH]; [reflexivity |].
  rewrite fmap_cons, !filter_cons. repeat case_decide; simpl; congruence.
Qed.

Lemma length_filter_absent (u : string) (l : list string) :
  u ∉ l -> length (filter (λ x, x = u) l) = 0.
Proof.
  induction l as [| a l IH]; [reflexivity |].
  intros [Hne Hl]%not_elem_of_cons. rewrite filter_cons.
  case_decide; [congruence | auto].
Qed.

Lemma length_filter_NoDup (u : string) (l : list string) :
  NoDup l -> u ∈ l -> length (filter (λ x, x = u) l) = 1.
Proof.
  induction 1 as [| a l Ha Hl IH]; intros Hu; [by apply elem_of_nil in Hu |].
  rewrite filter_cons. apply elem_of_cons in Hu as [-> | Hu].
  - rewrite decide_True by reflexivity. simpl.
    rewrite length_filter_absent by exact Ha. reflexivity.
  - rewrite decide_False by (intros ->; contradiction). auto.
Qed.

(** C1, as stated, fails: with a duplicated unit identifier in the units
    input the run returns a table that has two rows for that identifier. *)
Lemma duplicate_unit_ids_keep_their_rows :
  ∃ table,
    (run_analysis to_numeric_digits init duplicate_units
       scenario_rentroll scenario_locks).2.1 = inr table
    ∧ ¬ one_row_per_unit_id duplicate_units table.
Proof.
  eexists. split; [vm_compute; reflexivity |].
  intros H. specialize (H "A1").
  assert (Hin : "A1" ∈ unit_ids duplicate_units) by (vm_compute; left).
  specialize (H Hin). vm_compute in H. discriminate H.
Qed.

(** C1, amended: the table of a run has exactly one row per row of the
    units input, in input order, carrying the trimmed unit identifier of
    that row; so an identifier has as many rows in the table as it has in
    the units input, and exactly one when the trimmed identifiers of the
    units input are pairwise distinct. *)
Theorem one_row_per_units_row (to_numeric : string -> float)
    (self self' : Analyzer) (units_file rentroll_file locks_file : DataFrame)
    (table : list Master.row) (l : list log_record) :
  run_analysis to_numeric self units_file rentroll_file locks_file
  = (self', (inr table, l)) ->
  Master.Unit <$> table = unit_ids units_file
  ∧ (∀ u, length (rows_of u table)
           = length (filter (λ x, x = u) (unit_ids units_file)))
  ∧ (NoDup (unit_ids units_file) -> one_row_per_unit_id units_file table).
Proof.
  intros H.
  assert (Hids : Master.Unit <$> table = unit_ids units_file).
  { apply run_analysis_inr in H
      as (rr & lk & lu & lr & ll & ld & _ & _ & _ & _ & _ & ->).
    unfold detect_miscompares, add_lock_status, unit_ids.
    rewrite <- !list_fmap_compose. reflexivity. }
  assert (Hcount : ∀ u, length (rows_of u table)
                        = length (filter (λ x, x = u) (unit_ids units_file))).
  { intros u. unfold rows_of. rewrite length_filter_fmap, Hids. reflexivity. }
  split_and!; [exact Hids | exact Hcount |].
  intros Hnd u Hu. rewrite Hcount. apply length_filter_NoDup; assumption.
Qed.

Lemma one_row_per_units_row_witness :
  Master.Unit <$> scenario_table = unit_ids scenario_units
  ∧ one_row_per_unit_id scenario_units scenario_table.
Proof.
  destruct (one_row_per_units_row to_numeric_digits init
              scenario_run.1 scenario_units scenario_rentroll scenario_locks
              scenario_table scenario_run.2.2) as (Hids & _ & Hone).
  - vm_compute. reflexivity.
  - split; [exact Hids |]. apply Hone.
    apply (bool_decide_unpack _). vm_compute. exact I.
Defined.

(** ** Summary *)

Lemma sum_bool_acc (l : list bool) (acc : Z) :
  foldl (λ acc (b : bool), (acc + (if b then 1 else 0))%Z) acc l
  = (acc + Z.of_nat (length (filter (λ b, b = true) l)))%Z.
Proof.
  revert acc. induction l as [| b l IH]; intros acc; simpl.
  - lia.
  - rewrite IH, filter_cons. destruct b; case_decide; try congruence; simpl; lia.
Qed.

Lemma sum_bool_count (l : list bool) :
  sum_bool l = Z.of_nat (length (filter (λ b, b = true) l)).
Proof. unfold sum_bool. rewrite sum_bool_acc. lia. Qed.

Lemma length_filter_flags (df : list Master.row) :
  length (filter (λ b, b = true) (Master.Is_Miscompare <$> df))
  = length (filter (λ r, Master.Is_Miscompare r = true) df).
Proof.
  induction df as [| r df IH]; [reflexivity |].
  rewrite fmap_cons, !filter_cons. repeat case_decide; simpl; congruence.
Qed.

(** C8: for a non-empty table, [miscompare_count] is the number of rows
    whose [Is_Miscompare] is true, and [miscompare_rate] is that number
    divided by the number of rows, times 100 (in float64 arithmetic, as
    the code computes it). *)
Theorem summary_miscompare_rate (df : list Master.row) :
  df ≠ [] ->
  let count := length (filter (λ r, Master.Is_Miscompare r = true) df) in
  total_units (generate_summary_report df) = length df
  ∧ miscompare_count (generate_summary_report df) = Z.of_nat count
  ∧ miscompare_rate (generate_summary_report df)
    = (to_float (Z.of_nat count) / to_float (Z.of_nat (length df)) * 100)%float.
Proof.
  intros _ count. unfold generate_summary_report. simpl.
  rewrite sum_bool_count, length_filter_flags. auto.
Qed.

Lemma summary_miscompare_rate_witness :
  total_units (generate_summary_report scenario_table) = 6
  ∧ miscompare_count (generate_summary_report scenario_table) = 3%Z
  ∧ miscompare_rate (generate_summary_report scenario_table) = 50%float.
Proof.
  apply (summary_miscompare_rate scenario_table).
  vm_compute. discriminate.
Defined.

(** ** Determinism *)

(** C9: the outcome of a run (the table or the exception, and the log)
    is a function of the three inputs alone: it does not depend on the
    state the analyzer object is in, and a second run of the same object
    on the same inputs returns the same outcome and leaves the object as
    the first run left it. *)
Theorem run_analysis_deterministic (to_numeric : string -> float)
    (self other : Analyzer) (units_file rentroll_file locks_file : DataFrame) :
  (run_analysis to_numeric self units_file rentroll_file locks_file).2
  = (run_analysis to_numeric other units_file rentroll_file locks_file).2
  ∧ run_analysis to_numeric
      (run_analysis to_numeric self units_file rentroll_file locks_file).1
      units_file rentroll_file locks_file
    = run_analysis to_numeric self units_file rentroll_file locks_file.
Proof.
  unfold run_analysis, step.
  destruct (load_units_file units_file) as [[e | u] lu]; simpl; [auto |].
  destruct (load_rentroll_file to_numeric rentroll_file) as [[e | rr] lr];
    simpl; [auto |].
  destruct (load_locks_file locks_file) as [[e | lk] ll]; simpl; [auto |].
  rewrite determine_unit_status_returns. simpl. auto.
Qed.

(** ** Column names the loaders accept *)

(** C4 does not hold of the loaders: each of these three inputs has an
    equivalent of every required column, and the upload check of the web
    front end accepts it, yet its loader raises the error for missing
    columns.  The rentroll loader does accept the upper-case and the
    quoted spellings it lists. *)
Theorem loaders_reject_equivalent_headers :
  (has_equivalents ["Unit"; "Status"] units_upper_header = true
   ∧ (validate_csv_file units_upper_header false ["Unit"; "Status"] "units.csv").1
     = true
   ∧ load_units_file units_upper_header
     = (inl (ValueError "Missing required columns in units.csv: ['Unit']"),
        [ErrorLoadingUnits
           (ValueError "Missing required columns in units.csv: ['Unit']")]))
  ∧ (has_equivalents ["Unit"; "Days Past Due"] rentroll_padded_header = true
     ∧ (validate_csv_file rentroll_padded_header false
          ["Unit"; "Days Past Due"] "rentroll.csv").1 = true
     ∧ (load_rentroll_file to_numeric_digits rentroll_padded_header).1
       = inl (ValueError
                "Missing required columns in rentroll.csv: ['Unit', 'Days Past Due']"))
  ∧ (has_equivalents ["Unit Number"; "Status"] locks_lower_header = true
     ∧ (validate_csv_file locks_lower_header false
          ["Unit Number"; "Status"] "locks.csv").1 = true
     ∧ (load_locks_file locks_lower_header).1
       = inl (ValueError
                "Missing required columns in locks.csv: ['Unit Number', 'Status']"))
  ∧ (load_rentroll_file to_numeric_digits
       {| columns := header [quoted "UNIT"; "DAYS PAST DUE"]; values := [["A1 "; "3"]] |}).1
    = inr [{| Rentroll.Unit := "A1";
              Rentroll.Days_Past_Due_Clean := 3;
              Rentroll.Payment_Status := "Delinquent" |}].
Proof. vm_compute. repeat split. Qed.

(** ** The scenarios of the specification *)

(** Scenarios A to E, and the unit of unknown occupancy: the final
    status, the flag and the severity of each row of the table. *)
Example scenario_table_rows :
  (λ r, (Master.Unit r, Master.Final_Status r, Master.Is_Miscompare r,
         Master.Miscompare_Severity r)) <$> scenario_table
  = [("U1", "Vacant", false, "No Issue");
     ("U2", "Occupied-Current", true, "HIGH - Current tenant without proper lock");
     ("U3", "Occupied-Delinquent", false, "No Issue");
     ("U4", "Vacant", true, "HIGH - Vacant unit with tenant lock");
     ("U5", "Vacant", true, "MEDIUM - Lock status mismatch");
     ("U6", "Unknown", false, "No Issue")].
Proof. vm_compute. reflexivity. Qed.

(** The run on the scenarios logs the fallback of unit U5 and the
    unmapped status code of unit U6, both as warnings. *)
Example scenario_log :
  scenario_run.2.2 = [UnmappedStatuses ["UNR"]; OccupiedNotInRentroll "U5"].
Proof. vm_compute. reflexivity. Qed.

(** * Further properties of the analyzer *)

(** ** Severity and expectation *)

Lemma severity_no_issue (row : Flagged.row) :
  get_miscompare_severity row = "No Issue" ↔ Flagged.Is_Miscompare row = false.
Proof.
  unfold get_miscompare_severity.
  destruct (Flagged.Is_Miscompare row); simpl.
  - repeat (case_match; try (split; discriminate)).
  - split; reflexivity.
Qed.

Lemma is_miscompare_unknown (row : WithLocks.row) :
  WithLocks.Final_Status row = "Unknown" -> is_miscompare row = false.
Proof. intros H. unfold is_miscompare. rewrite H. reflexivity. Qed.

(** X1: in the table of [detect_miscompares], the severity is "No Issue"
    exactly on the rows that are not miscompares. *)
Theorem no_issue_iff_not_miscompare (df : list WithLocks.row) :
  Forall (λ r, Master.Miscompare_Severity r = "No Issue"
               ↔ Master.Is_Miscompare r = false)
    (detect_miscompares df).
Proof.
  apply Forall_forall. intros r (row & _ & ->)%elem_of_detect_miscompares.
  simpl. apply (severity_no_issue (flag row)).
Qed.

(** X2: after [add_lock_status] and [detect_miscompares], the column
    [Expected_Lock_Status] is the expectation of the row's final status,
    and a row whose final status is Vacant or Occupied-Current is a
    miscompare exactly when its actual lock status differs from that
    column. *)
Theorem miscompare_iff_differs_from_expected (ws : list WithStatus.row)
    (lk : list Locks.row) :
  Forall (λ r,
            Master.Expected_Lock_Status r
            = get_expected_lock_status (Master.Final_Status r)
            ∧ (Master.Final_Status r ∈ ["Vacant"; "Occupied-Current"] ->
               (Master.Is_Miscompare r = true
                ↔ Master.Actual_Lock_Status r ≠ Master.Expected_Lock_Status r)))
    (detect_miscompares (add_lock_status ws lk)).
Proof.
  apply Forall_forall. intros r (row & Hrow & ->)%elem_of_detect_miscompares.
  apply elem_of_add_lock_status in Hrow as (w & _ & _ & _ & Hf & _ & He).
  simpl. rewrite He, Hf. split; [reflexivity |].
  intros Hin. unfold is_miscompare. rewrite Hf.
  split_mem; rewrite Hin; simpl; apply bool_decide_eq_true.
Qed.

(** ** Duplicate rows of the rentroll *)

Lemma to_dict_acc_notin {A} (key value : A -> string) (rows : list A)
    (m : gmap string string) (k : string) :
  k ∉ key <$> rows ->
  foldl (λ m r, <[key r := value r]> m) m rows !! k = m !! k.
Proof.
  revert m. induction rows as [| r rows IH]; intros m Hk; [reflexivity |].
  rewrite fmap_cons in Hk. apply not_elem_of_cons in Hk as [Hne Hk].
  simpl. rewrite IH by exact Hk. apply lookup_insert_ne. congruence.
Qed.

(** The dictionary keeps, for a key, the value of the last row with it. *)
Lemma to_dict_last {A} (key value : A -> string) (l1 l2 : list A) (r : A) :
  key r ∉ key <$> l2 ->
  to_dict key value (l1 ++ r :: l2) !! key r = Some (value r).
Proof.
  intros Hk. unfold to_dict. rewrite foldl_app. simpl.
  rewrite to_dict_acc_notin by exact Hk. apply lookup_insert_eq.
Qed.

(** X3: when the rentroll has several rows for a unit, the last one
    decides: an Occupied unit gets the final status "Occupied-" followed
    by the payment status of the last rentroll row of that unit. *)
Theorem last_rentroll_row_wins (units_df : list Units.row)
    (before after : list Rentroll.row) (last : Rentroll.row)
    (i : nat) (row : Units.row) :
  units_df !! i = Some row ->
  Units.Unit_Status row = Some "Occupied" ->
  Rentroll.Unit last = Units.Unit row ->
  Units.Unit row ∉ Rentroll.Unit <$> after ->
  ∃ ws logs w,
    determine_unit_status units_df (before ++ last :: after) = (inr ws, logs)
    ∧ ws !! i = Some w
    ∧ WithStatus.Unit w = Units.Unit row
    ∧ WithStatus.Final_Status w = "Occupied-" +:+ Rentroll.Payment_Status last.
Proof.
  intros Hi Hs Hu Ha.
  pose proof (determine_unit_status_returns units_df (before ++ last :: after)) as Hd.
  simpl in Hd. eexists _, _, _. split; [exact Hd |].
  rewrite list_lookup_fmap, Hi. simpl. split; [reflexivity |].
  split; [reflexivity |].
  simpl. unfold resolved_status, get_final_status. rewrite Hs.
  rewrite decide_False by discriminate. rewrite decide_True by reflexivity.
  rewrite <- Hu in *. rewrite to_dict_last by exact Ha. reflexivity.
Qed.

Lemma last_rentroll_row_wins_witness :
  ∃ ws logs w,
    determine_unit_status [occupied_u5]
      ([{| Rentroll.Unit := "U5"; Rentroll.Days_Past_Due_Clean := 30;
           Rentroll.Payment_Status := "Delinquent" |}]
       ++ {| Rentroll.Unit := "U5"; Rentroll.Days_Past_Due_Clean := 0;
             Rentroll.Payment_Status := "Current" |} :: [rentroll_u2])
    = (inr ws, logs)
    ∧ ws !! 0 = Some w
    ∧ WithStatus.Unit w = "U5"
    ∧ WithStatus.Final_Status w = "Occupied-Current".
Proof.
  apply (last_rentroll_row_wins [occupied_u5] _ [rentroll_u2]
           {| Rentroll.Unit := "U5"; Rentroll.Days_Past_Due_Clean := 0;
              Rentroll.Payment_Status := "Current" |} 0 occupied_u5).
  - reflexivity.
  - reflexivity.
  - reflexivity.
  - simpl. intros H. split_mem. discriminate H.
Defined.

(** ** The warnings of the status resolution *)

Lemma get_final_status_log (m : gmap string string) (row : Units.row)
    (x : log_record) :
  x ∈ (get_final_status m row).2
  ↔ x = OccupiedNotInRentroll (Units.Unit row)
    ∧ Units.Unit_Status row = Some "Occupied"
    ∧ m !! Units.Unit row = None.
Proof.
  unfold get_final_status.
  destruct (decide (Units.Unit_Status row = Some "Vacant")) as [Hv | Hv]; simpl.
  { split; [intros H; by apply elem_of_nil in H |].
    intros (_ & Ho & _). congruence. }
  destruct (decide (Units.Unit_Status row = Some "Occupied")) as [Ho | Ho]; simpl.
  - destruct (m !! Units.Unit row) as [p |] eqn:Hm; simpl.
    + split; [intros H; by apply elem_of_nil in H |].
      intros (_ & _ & Hn). discriminate Hn.
    + rewrite list_elem_of_singleton. tauto.
  - split; [intros H; by apply elem_of_nil in H |]. tauto.
Qed.

(** X4: the resolver logs the fallback warning for a unit exactly when
    the units table has an Occupied row of that unit and the rentroll has
    no row of it. *)
Theorem fallback_warning_iff (units_df : list Units.row)
    (rentroll_df : list Rentroll.row) (u : string) :
  OccupiedNotInRentroll u ∈ (determine_unit_status units_df rentroll_df).2
  ↔ ∃ row, row ∈ units_df
           ∧ Units.Unit row = u
           ∧ Units.Unit_Status row = Some "Occupied"
           ∧ u ∉ Rentroll.Unit <$> rentroll_df.
Proof.
  rewrite determine_unit_status_returns. simpl.
  rewrite elem_of_app, elem_of_concat. split.
  - intros [(l & Hl & Hx) | Hx].
    + apply list_elem_of_fmap in Hl as (row & -> & Hrow).
      apply get_final_status_log in Hx as (Heq & Ho & Hm).
      injection Heq as ->. exists row.
      apply to_dict_None in Hm. auto.
    + unfold orphan_warning in Hx. case_decide; split_mem. discriminate Hx.
  - intros (row & Hrow & <- & Ho & Hn). left.
    exists [OccupiedNotInRentroll (Units.Unit row)]. split; [| left].
    apply list_elem_of_fmap. exists row. split; [| exact Hrow].
    rewrite get_final_status_fallback; [reflexivity | exact Ho |].
    apply to_dict_None. exact Hn.
Qed.

(** X5: the resolver logs the warning about rentroll units missing from
    the units table exactly when there is such a unit, and the warning
    carries exactly the units that the rentroll has and the units table
    has not. *)
Theorem orphan_warning_iff (units_df : list Units.row)
    (rentroll_df : list Rentroll.row) (s : gset string) :
  RentrollNotInUnits s ∈ (determine_unit_status units_df rentroll_df).2
  ↔ s ≠ ∅
    ∧ ∀ u, u ∈ s ↔ u ∈ Rentroll.Unit <$> rentroll_df
                   ∧ u ∉ Units.Unit <$> units_df.
Proof.
  rewrite determine_unit_status_returns. simpl.
  rewrite elem_of_app, elem_of_concat. unfold orphan_warning.
  set (orphans := list_to_set (Rentroll.Unit <$> rentroll_df)
                  ∖ list_to_set (Units.Unit <$> units_df) : gset string).
  assert (Horph : ∀ u, u ∈ orphans ↔ u ∈ Rentroll.Unit <$> rentroll_df
                                   ∧ u ∉ Units.Unit <$> units_df).
  { intros u. unfold orphans.
    rewrite elem_of_difference, !elem_of_list_to_set. reflexivity. }
  split.
  - intros [(l & Hl & Hx) | Hx].
    + apply list_elem_of_fmap in Hl as (row & -> & _).
      apply get_final_status_log in Hx as (Heq & _). discriminate Heq.
    + case_decide as He; split_mem. injection Hx as ->.
      split; [exact He | exact Horph].
  - intros [Hne Hs]. right.
    assert (s = orphans) as ->.
    { apply set_eq. intros u. rewrite Hs, Horph. reflexivity. }
    rewrite decide_False by exact Hne. left.
Qed.

(** ** What the loaders keep and what they warn about *)

Lemma unique_acc (l acc : list string) :
  NoDup acc ->
  NoDup (foldl (λ acc x, if decide (x ∈ acc) then acc else acc ++ [x]) acc l)
  ∧ ∀ x, x ∈ foldl (λ acc x, if decide (x ∈ acc) then acc else acc ++ [x]) acc l
         ↔ x ∈ acc ∨ x ∈ l.
Proof.
  revert acc. induction l as [| a l IH]; intros acc Hnd; simpl.
  - split; [exact Hnd |]. intros x. rewrite elem_of_nil. tauto.
  - case_decide as Ha.
    + destruct (IH acc Hnd) as [H1 H2]. split; [exact H1 |].
      intros x. rewrite H2, elem_of_cons. split; [tauto |].
      intros [H | [-> | H]]; auto.
    + assert (Hnd' : NoDup (acc ++ [a])).
      { apply NoDup_app. split_and!; [exact Hnd | | apply NoDup_singleton].
        intros x Hx ->%list_elem_of_singleton. contradiction. }
      destruct (IH _ Hnd') as [H1 H2]. split; [exact H1 |].
      intros x. rewrite H2, elem_of_app, list_elem_of_singleton, elem_of_cons. tauto.
Qed.

(** [unique] lists each value of its argument, once. *)
Lemma unique_spec (l : list string) :
  NoDup (unique l) ∧ ∀ x, x ∈ unique l ↔ x ∈ l.
Proof.
  destruct (unique_acc l [] (NoDup_nil_2)) as [H1 H2]. split; [exact H1 |].
  intros x. unfold unique. rewrite H2, elem_of_nil. tauto.
Qed.

Lemma missing_from_nil (cols : list label) (required_cols : list string) :
  missing_from cols required_cols = []
  ↔ ∀ c, c ∈ required_cols -> StrLabel c ∈ cols.
Proof.
  unfold missing_from. split.
  - intros Hf c Hc.
    destruct (decide (StrLabel c ∈ cols)) as [H | H]; [exact H |].
    exfalso. exact (filter_nil_not_elem_of _ _ c Hf H Hc).
  - intros H. induction required_cols as [| c l IH]; [reflexivity |].
    rewrite filter_cons, decide_False.
    + apply IH. intros c' Hc'. apply H. right. exact Hc'.
    + intros Hn. apply Hn, H. left.
Qed.

Lemma elem_of_unique (l : list string) (x : string) : x ∈ unique l ↔ x ∈ l.
Proof. apply unique_spec. Qed.

Lemma NoDup_unique (l : list string) : NoDup (unique l).
Proof. apply unique_spec. Qed.

(** The two outcomes of [load_units_file]: with the columns "Unit" and
    "Status" in the header it returns the normalised rows and logs at
    most the warning about unmapped statuses; otherwise it raises the
    error that names the missing columns and logs it. *)
Lemma load_units_file_cases (df : DataFrame) :
  let code raw := Py.upper (Py.slice_to 3 (cell (columns df) raw "Status")) in
  let missing := missing_from (columns df) ["Unit"; "Status"] in
  if decide (StrLabel "Unit" ∈ columns df ∧ StrLabel "Status" ∈ columns df) then
    ∃ l, load_units_file df
         = (inr (normalise_unit (columns df) <$> values df), l)
         ∧ (∀ x, x ∈ l ->
                 ∃ codes, x = UnmappedStatuses codes ∧ NoDup codes ∧ codes ≠ [])
         ∧ (∀ c, (∃ codes, UnmappedStatuses codes ∈ l ∧ c ∈ codes)
                 ↔ (c ∉ ["OCC"; "VAC"]) ∧ (∃ raw, raw ∈ values df ∧ c = code raw))
  else
    missing ≠ []
    ∧ load_units_file df
      = (inl (ValueError ("Missing required columns in units.csv: "
                          +:+ Py.repr_list missing)),
         [ErrorLoadingUnits
            (ValueError ("Missing required columns in units.csv: "
                         +:+ Py.repr_list missing))]).
Proof.
  intros code missing. unfold load_units_file. fold missing.
  case_decide as Hcols.
  - assert (Hm : missing = []).
    { apply missing_from_nil. intros c Hc. split_mem; subst c; tauto. }
    rewrite Hm.
    match goal with
    | |- context [filter ?P ?rows] => destruct (filter P rows) as [| x xs] eqn:Hf
    end.
    + exists []. simpl. split_and!.
      * do 2 f_equal. symmetry. apply list_fmap_ext. intros i r Hr.
        unfold normalise_unit. f_equal. fold (code r).
        destruct (status_mapping !! code r) as [v |] eqn:Hv; [reflexivity |].
        exfalso.
        eapply (filter_nil_not_elem_of _ _ _ Hf);
          [| apply list_elem_of_fmap_2, list_elem_of_lookup_2 with i; exact Hr].
        simpl. exact Hv.
      * intros x Hx. by apply elem_of_nil in Hx.
      * intros c. split.
        { intros (codes & Hx & _). by apply elem_of_nil in Hx. }
        intros (Hc & raw & Hraw & ->). exfalso.
        eapply (filter_nil_not_elem_of _ _ _ Hf);
          [| apply list_elem_of_fmap_2; exact Hraw].
        simpl. rewrite status_mapping_lookup.
        apply not_elem_of_cons in Hc as [H1 Hc].
        apply not_elem_of_cons in Hc as [H2 _].
        rewrite !decide_False by assumption. reflexivity.
    + assert (Hne : unique (Units.Status_Clean <$> x :: xs) ≠ []).
      { intros Hnil.
        assert (Hx : Units.Status_Clean x ∈ unique (Units.Status_Clean <$> x :: xs))
          by (apply elem_of_unique; left).
        rewrite Hnil in Hx. by apply elem_of_nil in Hx. }
      rewrite <- Hf in Hne |- *. clear Hf x xs. eexists. simpl. split_and!.
      * unfold normalise_unit. rewrite <- list_fmap_compose. reflexivity.
      * intros x Hx. split_mem. subst x. eexists. split; [reflexivity |].
        split; [apply NoDup_unique | exact Hne].
      * intros c.
        assert (Hc : c ∉ ["OCC"; "VAC"] ↔ status_mapping !! c = None).
        { rewrite status_mapping_lookup, !not_elem_of_cons.
          repeat case_decide; split; try tauto; try discriminate.
          intros _. split_and!; auto. apply not_elem_of_nil. }
        rewrite Hc. split.
        { intros (codes & Hx & Hin). split_mem. injection Hx as ->.
          rewrite elem_of_unique in Hin.
          apply list_elem_of_fmap in Hin as (r & -> & Hr).
          apply list_elem_of_filter in Hr as [Hn Hr].
          apply list_elem_of_fmap in Hr as (raw & -> & Hraw).
          simpl in *. split; [exact Hn |]. exists raw. auto. }
        intros (Hn & raw & Hraw & ->). eexists. split; [left |].
        apply elem_of_unique. apply list_elem_of_fmap. eexists.
        split; [| apply list_elem_of_filter; split;
                  [| apply list_elem_of_fmap_2; exact Hraw]].
        -- reflexivity.
        -- simpl. exact Hn.
  - assert (Hm : missing ≠ []).
    { intros Hm. apply Hcols. split; apply (proj1 (missing_from_nil _ _) Hm).
      - left.
      - right. left. }
    split; [exact Hm |].
    destruct missing; [contradiction | reflexivity].
Qed.

(** The two outcomes of [load_locks_file]. *)
Lemma load_locks_file_cases (df : DataFrame) :
  let missing := missing_from (columns df) ["Unit Number"; "Status"] in
  if decide (StrLabel "Unit Number" ∈ columns df ∧ StrLabel "Status" ∈ columns df) then
    ∃ l, load_locks_file df
         = (inr ((λ raw,
                    {| Locks.Unit := Py.strip (cell (columns df) raw "Unit Number");
                       Locks.Lock_Status := Py.strip (cell (columns df) raw "Status") |})
                   <$> values df), l)
         ∧ (∀ x, x ∈ l -> ∃ statuses, x = InvalidLockStatuses statuses ∧ NoDup statuses)
         ∧ (∀ s, (∃ statuses, InvalidLockStatuses statuses ∈ l ∧ s ∈ statuses)
                 ↔ (s ∉ valid_lock_statuses)
                   ∧ (∃ raw, raw ∈ values df
                             ∧ s = Py.strip (cell (columns df) raw "Status")))
  else
    missing ≠ []
    ∧ load_locks_file df
      = (inl (ValueError ("Missing required columns in locks.csv: "
                          +:+ Py.repr_list missing)),
         [ErrorLoadingLocks
            (ValueError ("Missing required columns in locks.csv: "
                         +:+ Py.repr_list missing))]).
Proof.
  intros missing. unfold load_locks_file. fold missing.
  case_decide as Hcols.
  - assert (Hm : missing = []).
    { apply missing_from_nil. intros c Hc. split_mem; subst c; tauto. }
    rewrite Hm.
    match goal with
    | |- context [filter ?P ?rows] => destruct (filter P rows) as [| x xs] eqn:Hf
    end.
    + exists []. simpl. split_and!; [reflexivity | |].
      * intros x Hx. by apply elem_of_nil in Hx.
      * intros s. split.
        { intros (sts & Hx & _). by apply elem_of_nil in Hx. }
        intros (Hs & raw & Hraw & ->). exfalso.
        eapply (filter_nil_not_elem_of _ _ _ Hf);
          [| apply list_elem_of_fmap_2; exact Hraw].
        simpl. exact Hs.
    + rewrite <- Hf. clear Hf x xs. eexists. simpl. split_and!; [reflexivity | |].
      * intros x Hx. split_mem. subst x. eexists. split; [reflexivity |].
        apply NoDup_unique.
      * intros s. split.
        { intros (sts & Hx & Hin). split_mem. injection Hx as ->.
          rewrite elem_of_unique in Hin.
          apply list_elem_of_fmap in Hin as (r & -> & Hr).
          apply list_elem_of_filter in Hr as [Hn Hr].
          apply list_elem_of_fmap in Hr as (raw & -> & Hraw).
          simpl in *. split; [exact Hn |]. exists raw. auto. }
        intros (Hn & raw & Hraw & ->). eexists. split; [left |].
        apply elem_of_unique. apply list_elem_of_fmap. eexists.
        split; [| apply list_elem_of_filter; split;
                  [| apply list_elem_of_fmap_2; exact Hraw]].
        -- reflexivity.
        -- simpl. exact Hn.
  - assert (Hm : missing ≠ []).
    { intros Hm. apply Hcols. split; apply (proj1 (missing_from_nil _ _) Hm).
      - left.
      - right. left. }
    split; [exact Hm |].
    destruct missing; [contradiction | reflexivity].
Qed.

Lemma any_true_iff (cols : list label) (candidates : list string) :
  Py.any (λ col, bool_decide (StrLabel col ∈ cols)) candidates = true
  ↔ Exists (λ c, StrLabel c ∈ cols) candidates.
Proof.
  unfold Py.any. induction candidates as [| c l IH]; simpl.
  - split; [discriminate | intros H; inversion H].
  - rewrite orb_true_iff, Exists_cons, bool_decide_eq_true, IH. reflexivity.
Qed.

Lemma first_present_Some (cols : list label) (candidates : list string) :
  Exists (λ c, StrLabel c ∈ cols) candidates ->
  ∃ c, first_present cols candidates = Some c ∧ c ∈ candidates ∧ StrLabel c ∈ cols.
Proof.
  intros (c & Hc & Hin)%Exists_exists. unfold first_present.
  destruct (list_find_elem_of (λ col, StrLabel col ∈ cols) candidates c Hc Hin)
    as [[i x] Hx].
  rewrite Hx. simpl. exists x.
  apply list_find_Some in Hx as (Hi & Hp & _).
  split_and!; [reflexivity | eapply list_elem_of_lookup_2, Hi | exact Hp].
Qed.

(** The two outcomes of [load_rentroll_file]. *)
Lemma load_rentroll_file_cases (to_numeric : string -> float) (df : DataFrame) :
  let unit_found := Exists (λ c, StrLabel c ∈ columns df) unit_col_candidates in
  let days_found := Exists (λ c, StrLabel c ∈ columns df) days_col_candidates in
  let missing :=
    (if decide unit_found then [] else ["Unit"])
    ++ (if decide days_found then [] else ["Days Past Due"]) in
  if decide (unit_found ∧ days_found) then
    ∃ unit_col days_col rr,
      first_present (columns df) unit_col_candidates = Some unit_col
      ∧ first_present (columns df) days_col_candidates = Some days_col
      ∧ load_rentroll_file to_numeric df = (inr rr, [])
      ∧ length rr = length (values df)
      ∧ ∀ i raw, values df !! i = Some raw ->
          ∃ r, rr !! i = Some r
               ∧ Rentroll.Unit r = Py.strip (cell (columns df) raw unit_col)
               ∧ let x := to_numeric (cell (columns df) raw days_col) in
                 Rentroll.Days_Past_Due_Clean r
                 = (if PrimFloat.is_nan x then 0%float else x)
                 ∧ PrimFloat.is_nan (Rentroll.Days_Past_Due_Clean r) = false
                 ∧ (PrimFloat.is_nan x = true -> Rentroll.Payment_Status r = "Current")
                 ∧ Rentroll.Payment_Status r
                   = (if PrimFloat.ltb 0 (Rentroll.Days_Past_Due_Clean r)
                      then "Delinquent" else "Current")
  else
    missing ≠ []
    ∧ load_rentroll_file to_numeric df
      = (inl (ValueError ("Missing required columns in rentroll.csv: "
                          +:+ Py.repr_list missing)),
         [ErrorLoadingRentroll
            (ValueError ("Missing required columns in rentroll.csv: "
                         +:+ Py.repr_list missing))]).
Proof.
  intros unit_found days_found missing. unfold load_rentroll_file.
  destruct (Py.any _ unit_col_candidates) eqn:Hu;
    destruct (Py.any _ days_col_candidates) eqn:Hd.
  - apply any_true_iff in Hu, Hd.
    rewrite decide_True by (split; assumption).
    destruct (first_present_Some _ _ Hu) as (uc & Huc & _).
    destruct (first_present_Some _ _ Hd) as (dc & Hdc & _).
    exists uc, dc. eexists. rewrite Huc, Hdc. simpl.
    split_and!; try reflexivity.
    + rewrite length_fmap. reflexivity.
    + intros i raw Hraw. rewrite list_lookup_fmap, Hraw. simpl.
      eexists. split; [reflexivity |]. simpl. split; [reflexivity |].
      unfold fillna0.
      destruct (PrimFloat.is_nan (to_numeric (cell (columns df) raw dc))) eqn:Hn.
      * split_and!; reflexivity.
      * split_and!; [reflexivity | exact Hn | discriminate | reflexivity].
  - assert (Hnd : ¬ days_found).
    { intros H. apply any_true_iff in H. unfold days_found in H. congruence. }
    apply any_true_iff in Hu.
    rewrite decide_False by tauto. unfold missing.
    rewrite (decide_True (P := unit_found)) by exact Hu.
    rewrite (decide_False (P := days_found)) by exact Hnd.
    simpl. split; [discriminate | reflexivity].
  - assert (Hnu : ¬ unit_found).
    { intros H. apply any_true_iff in H. unfold unit_found in H. congruence. }
    apply any_true_iff in Hd.
    rewrite decide_False by tauto. unfold missing.
    rewrite (decide_False (P := unit_found)) by exact Hnu.
    rewrite (decide_True (P := days_found)) by exact Hd.
    simpl. split; [discriminate | reflexivity].
  - assert (Hnu : ¬ unit_found).
    { intros H. apply any_true_iff in H. unfold unit_found in H. congruence. }
    assert (Hnd : ¬ days_found).
    { intros H. apply any_true_iff in H. unfold days_found in H. congruence. }
    rewrite decide_False by tauto. unfold missing.
    rewrite (decide_False (P := unit_found)) by exact Hnu.
    rewrite (decide_False (P := days_found)) by exact Hnd.
    simpl. split; [discriminate | reflexivity].
Qed.

(** Trimming takes the whitespace of [str.isspace] away, of one byte or
    of several, and a slice keeps every byte of a character. *)
Example strip_trims_unicode_space :
  Py.strip (nbsp +:+ " A1" +:+ ideographic_space +:+ nbsp) = "A1"
  ∧ Py.slice_to 3 "école" = "éco"
  ∧ unit_ids units_nbsp = ["A1"; "A1"].
Proof. vm_compute. repeat split. Qed.

(** X6: when [load_units_file] returns, it has kept every row, with the
    unit identifier trimmed, and the only record it can have logged is
    the warning about unmapped statuses, which lists at least one code
    and no code twice.  It has logged the warning exactly when some row
    has a status code other than "OCC" and "VAC", the code of a row
    being the first three characters of its status in upper case.  When
    these three characters are ASCII in every row, the column
    [Status_Clean] holds the code of each row and the warning lists
    exactly the codes of the input other than "OCC" and "VAC". *)
Theorem load_units_file_warns_unmapped (df : DataFrame) (u : list Units.row)
    (l : list log_record) :
  load_units_file df = (inr u, l) ->
  let prefix raw := Py.slice_to 3 (cell (columns df) raw "Status") in
  let code raw := Py.upper (prefix raw) in
  Units.Unit <$> u = unit_ids df
  ∧ (∀ x, x ∈ l -> ∃ codes, x = UnmappedStatuses codes ∧ NoDup codes ∧ codes ≠ [])
  ∧ (l ≠ [] ↔ ∃ raw, raw ∈ values df ∧ code raw ∉ ["OCC"; "VAC"])
  ∧ (forallb (λ raw, Py.isascii (prefix raw)) (values df) = true ->
     Units.Status_Clean <$> u = code <$> values df
     ∧ ∀ c, (∃ codes, UnmappedStatuses codes ∈ l ∧ c ∈ codes)
            ↔ (c ∉ ["OCC"; "VAC"]) ∧ (∃ raw, raw ∈ values df ∧ c = code raw)).
Proof.
  intros H prefix code. pose proof (load_units_file_cases df) as Hc. simpl in Hc.
  case_decide; [| destruct Hc as [_ Hc]; congruence].
  destruct Hc as (l' & Hl & Hwarn & Hcodes).
  rewrite H in Hl. injection Hl as -> ->.
  split_and!; [| exact Hwarn | |].
  - unfold unit_ids. rewrite <- list_fmap_compose. reflexivity.
  - split.
    + intros Hne. destruct l' as [| x l']; [contradiction |].
      destruct (Hwarn x) as (codes & -> & _ & Hcs); [left |].
      destruct codes as [| c codes]; [contradiction |].
      destruct (proj1 (Hcodes c)) as (Hc & raw & Hraw & ->).
      { eexists. split; [left | left]. }
      exists raw. auto.
    + intros (raw & Hraw & Hc).
      destruct (proj2 (Hcodes (code raw))) as (codes & Hin & _); [eauto |].
      intros ->. by apply elem_of_nil in Hin.
  - intros _. split; [| exact Hcodes].
    rewrite <- list_fmap_compose. reflexivity.
Qed.

Lemma load_units_file_warns_unmapped_witness :
  Units.Unit <$> scenario_units_rows = unit_ids scenario_units
  ∧ ∃ codes, UnmappedStatuses codes ∈ (load_units_file scenario_units).2
             ∧ "UNR" ∈ codes.
Proof.
  destruct (load_units_file_warns_unmapped scenario_units scenario_units_rows
              (load_units_file scenario_units).2) as (Hids & _ & _ & Hascii).
  - vm_compute. reflexivity.
  - destruct Hascii as [_ Hcodes]; [vm_compute; reflexivity |].
    split; [exact Hids |]. apply Hcodes. split.
    + intros H. split_mem; discriminate H.
    + exists ["U6"; "Unrentable"]. split; [| reflexivity].
      do 5 right. left.
Defined.

(** X7: when [load_locks_file] returns, it has kept every row, with the
    unit identifier and the lock status trimmed and otherwise verbatim,
    whether the status is one of the four recognised values or not; it
    has logged a warning exactly when some status is not recognised: the
    warning lists the unrecognised statuses, each once, and it is the
    only record logged. *)
Theorem load_locks_file_keeps_unrecognised (df : DataFrame) (lk : list Locks.row)
    (l : list log_record) :
  load_locks_file df = (inr lk, l) ->
  Locks.Unit <$> lk
  = (λ raw, Py.strip (cell (columns df) raw "Unit Number")) <$> values df
  ∧ Locks.Lock_Status <$> lk
    = (λ raw, Py.strip (cell (columns df) raw "Status")) <$> values df
  ∧ (∀ x, x ∈ l -> ∃ statuses, x = InvalidLockStatuses statuses ∧ NoDup statuses)
  ∧ (∀ s, (∃ statuses, InvalidLockStatuses statuses ∈ l ∧ s ∈ statuses)
          ↔ (s ∉ valid_lock_statuses)
            ∧ (∃ raw, raw ∈ values df
                      ∧ s = Py.strip (cell (columns df) raw "Status"))).
Proof.
  intros H. pose proof (load_locks_file_cases df) as Hc. simpl in Hc.
  case_decide; [| destruct Hc as [_ Hc]; congruence].
  destruct Hc as (l' & Hl & Hwarn & Hsts).
  rewrite H in Hl. injection Hl as -> ->.
  split_and!; [| | exact Hwarn | exact Hsts].
  - rewrite <- list_fmap_compose. reflexivity.
  - rewrite <- list_fmap_compose. reflexivity.
Qed.

Lemma load_locks_file_keeps_unrecognised_witness :
  Locks.Lock_Status
  <$> (match (load_locks_file
                {| columns := header ["Unit Number"; "Status"];
                   values := [["U1"; " Broken "]; ["U2"; "Assigned Vacant"]] |}).1 with
       | inr lk => lk
       | inl _ => []
       end)
  = ["Broken"; "Assigned Vacant"].
Proof.
  apply (load_locks_file_keeps_unrecognised
           {| columns := header ["Unit Number"; "Status"];
              values := [["U1"; " Broken "]; ["U2"; "Assigned Vacant"]] |}
           _ [InvalidLockStatuses ["Broken"]]).
  vm_compute. reflexivity.
Defined.

(** X8: when [load_rentroll_file] returns, it has logged nothing and
    kept every row; the days past due of a row are never NaN, the
    payment status is Delinquent when they are above 0 and Current
    otherwise, and a row whose days past due are not a number counts 0
    days and is Current. *)
Theorem load_rentroll_file_rows (to_numeric : string -> float) (df : DataFrame)
    (rr : list Rentroll.row) (l : list log_record) :
  load_rentroll_file to_numeric df = (inr rr, l) ->
  l = []
  ∧ length rr = length (values df)
  ∧ Forall (λ r, PrimFloat.is_nan (Rentroll.Days_Past_Due_Clean r) = false
                 ∧ Rentroll.Payment_Status r
                   = (if PrimFloat.ltb 0 (Rentroll.Days_Past_Due_Clean r)
                      then "Delinquent" else "Current")) rr
  ∧ ∃ days_col,
      first_present (columns df) days_col_candidates = Some days_col
      ∧ ∀ i raw, values df !! i = Some raw ->
          PrimFloat.is_nan (to_numeric (cell (columns df) raw days_col)) = true ->
          ∃ r, rr !! i = Some r
               ∧ Rentroll.Days_Past_Due_Clean r = 0%float
               ∧ Rentroll.Payment_Status r = "Current".
Proof.
  intros H. pose proof (load_rentroll_file_cases to_numeric df) as Hc. simpl in Hc.
  case_decide; [| destruct Hc as [_ Hc]; congruence].
  destruct Hc as (uc & dc & rr' & _ & Hdc & Hl & Hlen & Hrows).
  rewrite H in Hl. injection Hl as -> ->.
  split_and!; [reflexivity | exact Hlen | |].
  - apply Forall_lookup. intros i r Hi.
    destruct (values df !! i) as [raw |] eqn:Hraw.
    + destruct (Hrows i raw Hraw) as (r' & Hr' & _ & _ & Hn & _ & Hp).
      rewrite Hi in Hr'. injection Hr' as <-. auto.
    + apply lookup_ge_None in Hraw. apply lookup_lt_Some in Hi. lia.
  - exists dc. split; [exact Hdc |]. intros i raw Hraw Hnan.
    destruct (Hrows i raw Hraw) as (r & Hr & _ & Hd & _ & Hcur & _).
    exists r. rewrite Hnan in Hd. auto.
Qed.

Lemma load_rentroll_file_rows_witness :
  length rentroll_quoted_rows = 2
  ∧ Forall (λ r, PrimFloat.is_nan (Rentroll.Days_Past_Due_Clean r) = false
                 ∧ Rentroll.Payment_Status r
                   = (if PrimFloat.ltb 0 (Rentroll.Days_Past_Due_Clean r)
                      then "Delinquent" else "Current")) rentroll_quoted_rows.
Proof.
  destruct (load_rentroll_file_rows to_numeric_digits rentroll_quoted_header
              rentroll_quoted_rows []) as (_ & Hlen & Hrows & _).
  - vm_compute. reflexivity.
  - split; [exact Hlen | exact Hrows].
Defined.

(** ** When a run returns and what a failed run leaves *)

Lemma try_reraise_inl {A} (m : Res A) (h : exn -> log_record) (e : exn)
    (l : list log_record) :
  try_reraise m h = (inl e, l) -> ∃ l0, m = (inl e, l0) ∧ l = l0 ++ [h e].
Proof.
  destruct m as [[e' | a] l0]; simpl; [| discriminate].
  intros [= -> <-]. exists l0. auto.
Qed.

(** X9: a run returns a table exactly when the three headers have their
    required columns: "Unit" and "Status" for the units, one listed
    spelling of "Unit" and one of "Days Past Due" for the rentroll,
    "Unit Number" and "Status" for the locks.  No content of the rows
    makes a run fail. *)
Theorem run_analysis_returns_iff (to_numeric : string -> float) (self : Analyzer)
    (units_file rentroll_file locks_file : DataFrame) :
  (∃ table,
     (run_analysis to_numeric self units_file rentroll_file locks_file).2.1
     = inr table)
  ↔ (StrLabel "Unit" ∈ columns units_file ∧ StrLabel "Status" ∈ columns units_file)
    ∧ (Exists (λ c, StrLabel c ∈ columns rentroll_file) unit_col_candidates
       ∧ Exists (λ c, StrLabel c ∈ columns rentroll_file) days_col_candidates)
    ∧ (StrLabel "Unit Number" ∈ columns locks_file ∧ StrLabel "Status" ∈ columns locks_file).
Proof.
  pose proof (load_units_file_cases units_file) as Hu.
  pose proof (load_rentroll_file_cases to_numeric rentroll_file) as Hr.
  pose proof (load_locks_file_cases locks_file) as Hl.
  simpl in Hu, Hr, Hl. unfold run_analysis, step.
  destruct (decide (StrLabel "Unit" ∈ columns units_file ∧ StrLabel "Status" ∈ columns units_file))
    as [Hcu | Hcu].
  2:{ destruct Hu as [_ ->]. simpl. split; [intros [t Ht]; discriminate Ht | tauto]. }
  destruct Hu as (lu & -> & _).
  destruct (decide (Exists (λ c, StrLabel c ∈ columns rentroll_file) unit_col_candidates
                    ∧ Exists (λ c, StrLabel c ∈ columns rentroll_file) days_col_candidates))
    as [Hcr | Hcr].
  2:{ destruct Hr as [_ ->]. simpl. split; [intros [t Ht]; discriminate Ht | tauto]. }
  destruct Hr as (uc & dc & rr & _ & _ & -> & _).
  destruct (decide (StrLabel "Unit Number" ∈ columns locks_file ∧ StrLabel "Status" ∈ columns locks_file))
    as [Hcl | Hcl].
  2:{ destruct Hl as [_ ->]. simpl. split; [intros [t Ht]; discriminate Ht | tauto]. }
  destruct Hl as (ll & -> & _).
  rewrite determine_unit_status_returns. simpl.
  split; [tauto |]. intros _. eexists. reflexivity.
Qed.

(** X10: a run that raises leaves no table behind: the analyzer's
    [master_df] is what it was before the run, so [get_miscompares]
    answers as before; the exception is the one of the loader that
    failed, and the log ends with that loader's error record followed by
    the record that the analysis failed. *)
Theorem failed_run_leaves_no_table (to_numeric : string -> float)
    (self self' : Analyzer) (units_file rentroll_file locks_file : DataFrame)
    (e : exn) (l : list log_record) :
  run_analysis to_numeric self units_file rentroll_file locks_file
  = (self', (inl e, l)) ->
  master_df self' = master_df self
  ∧ get_miscompares self' = get_miscompares self
  ∧ ∃ l0 x, l = l0 ++ [x; AnalysisFailed e]
            ∧ x ∈ [ErrorLoadingUnits e; ErrorLoadingRentroll e; ErrorLoadingLocks e].
Proof.
  unfold run_analysis, step. intros H.
  destruct (load_units_file units_file) as [[eu | u] lu] eqn:Hu.
  { injection H as <- <- <-.
    unfold load_units_file in Hu. apply try_reraise_inl in Hu as (l0 & _ & ->).
    split_and!; [reflexivity | reflexivity |].
    exists l0, (ErrorLoadingUnits eu). rewrite <- app_assoc. split; [reflexivity | left]. }
  destruct (load_rentroll_file to_numeric rentroll_file) as [[er | rr] lr] eqn:Hr.
  { injection H as <- <- <-.
    unfold load_rentroll_file in Hr. apply try_reraise_inl in Hr as (l0 & _ & ->).
    split_and!; [reflexivity | reflexivity |].
    exists (lu ++ l0), (ErrorLoadingRentroll er).
    rewrite <- !app_assoc. split; [reflexivity | right; left]. }
  destruct (load_locks_file locks_file) as [[el | lk] ll] eqn:Hl.
  { injection H as <- <- <-.
    unfold load_locks_file in Hl. apply try_reraise_inl in Hl as (l0 & _ & ->).
    split_and!; [reflexivity | reflexivity |].
    exists (lu ++ lr ++ l0), (ErrorLoadingLocks el).
    rewrite <- !app_assoc. split; [reflexivity | right; right; left]. }
  rewrite determine_unit_status_returns in H. simpl in H. discriminate H.
Qed.

Lemma failed_run_leaves_no_table_witness :
  master_df
    (run_analysis to_numeric_digits scenario_run.1 units_upper_header
       scenario_rentroll scenario_locks).1
  = master_df scenario_run.1
  ∧ get_miscompares
      (run_analysis to_numeric_digits scenario_run.1 units_upper_header
         scenario_rentroll scenario_locks).1
    = get_miscompares scenario_run.1
  ∧ ∃ l0 x,
      (run_analysis to_numeric_digits scenario_run.1 units_upper_header
         scenario_rentroll scenario_locks).2.2
      = l0 ++ [x; AnalysisFailed
                    (ValueError "Missing required columns in units.csv: ['Unit']")]
      ∧ x ∈ [ErrorLoadingUnits
               (ValueError "Missing required columns in units.csv: ['Unit']");
             ErrorLoadingRentroll
               (ValueError "Missing required columns in units.csv: ['Unit']");
             ErrorLoadingLocks
               (ValueError "Missing required columns in units.csv: ['Unit']")].
Proof.
  apply (failed_run_leaves_no_table to_numeric_digits scenario_run.1 _
           units_upper_header scenario_rentroll scenario_locks).
  vm_compute. reflexivity.
Defined.

(** ** The upload check against the loaders *)

(** The comprehension succeeds on a header of strings, and then holds
    the trimmed and unquoted form of every label. *)
Lemma strip_labels_str (cols : list label) :
  forallb is_str cols = true ->
  ∃ l, strip_labels cols = inr l
       ∧ ∀ col, StrLabel col ∈ cols ->
           Py.strip_char (ascii_of_nat 34) (Py.strip col) ∈ l.
Proof.
  induction cols as [| [col | type_name] cols IH]; simpl.
  - intros _. exists []. split; [reflexivity |].
    intros col H. by apply elem_of_nil in H.
  - intros (l & -> & Hl)%IH. eexists. split; [reflexivity |].
    intros col' [[= ->] | H]%elem_of_cons; [left | right; auto].
  - discriminate.
Qed.

(** It raises at the first label that is not a string. *)
Lemma strip_labels_other (cols : list label) :
  forallb is_str cols = false ->
  ∃ type_name,
    OtherLabel type_name ∈ cols
    ∧ strip_labels cols
      = inl (AttributeError
               ("'" +:+ type_name +:+ "' object has no attribute 'strip'")).
Proof.
  induction cols as [| [col | type_name] cols IH]; simpl.
  - discriminate.
  - intros (type_name & Hin & ->)%IH. exists type_name.
    split; [right; exact Hin | reflexivity].
  - intros _. exists type_name. split; [left | reflexivity].
Qed.

(** On a header of strings the check passes when each expected name is
    found, in lower case, inside some column name that is trimmed,
    unquoted and in lower case. *)
Lemma validate_csv_file_accepts (df : DataFrame) (xlsx : bool)
    (expected_columns : list string) (file_name : string) :
  forallb is_str (columns df) = true ->
  (∀ e, e ∈ expected_columns ->
        ∃ col, StrLabel col ∈ columns df
               ∧ Py.contains (Py.lower e)
                   (Py.lower (Py.strip_char (ascii_of_nat 34) (Py.strip col)))
                 = true) ->
  (validate_csv_file df xlsx expected_columns file_name).1 = true.
Proof.
  intros (available_cols & Hs & Hav)%strip_labels_str H.
  unfold validate_csv_file. rewrite Hs.
  match goal with
  | |- context [filter ?P expected_columns] =>
      assert (Hf : filter P expected_columns = [])
  end.
  { induction expected_columns as [| e l IH]; [reflexivity |].
    rewrite filter_cons, decide_False.
    - apply IH. intros e' He'. apply H. right. exact He'.
    - intros Hn. apply Hn. destruct (H e) as (col & Hcol & Hc); [left |].
      apply Is_true_true. unfold Py.any. apply existsb_exists.
      eexists. split; [| exact Hc].
      apply list_elem_of_In, Hav, Hcol. }
  rewrite Hf. reflexivity.
Qed.

(** X11: on a table whose labels are all strings, as every table read
    from delimited text is, the upload check of the web front end
    accepts what the loader accepts: whenever [load_units_file],
    [load_rentroll_file] or [load_locks_file] returns,
    [validate_csv_file] with the expected columns of that input answers
    [True].  On a table with a label that is not a string, which a
    spreadsheet can give, the check answers [False] for every list of
    expected columns, with the message of the error that the first such
    label raises. *)
Theorem validate_csv_file_accepts_loadable (to_numeric : string -> float)
    (df : DataFrame) (xlsx : bool) (file_name : string) :
  (forallb is_str (columns df) = true ->
   ((∃ u, (load_units_file df).1 = inr u) ->
    (validate_csv_file df xlsx ["Unit"; "Status"] file_name).1 = true)
   ∧ ((∃ rr, (load_rentroll_file to_numeric df).1 = inr rr) ->
      (validate_csv_file df xlsx ["Unit"; "Days Past Due"] file_name).1 = true)
   ∧ ((∃ lk, (load_locks_file df).1 = inr lk) ->
      (validate_csv_file df xlsx ["Unit Number"; "Status"] file_name).1 = true))
  ∧ (forallb is_str (columns df) = false ->
     ∃ type_name,
       OtherLabel type_name ∈ columns df
       ∧ ∀ expected_columns,
           validate_csv_file df xlsx expected_columns file_name
           = (false, "Error reading " +:+ file_name +:+ ": '" +:+ type_name
                     +:+ "' object has no attribute 'strip'")).
Proof.
  split; [intros Hstr; split_and! |].
  - intros [u Hu]. pose proof (load_units_file_cases df) as H. simpl in H.
    case_decide as Hc; [| destruct H as [_ H]; rewrite H in Hu; discriminate Hu].
    apply validate_csv_file_accepts; [exact Hstr |]. intros e He.
    split_mem; subst e;
      [exists "Unit" | exists "Status"]; (split; [tauto | reflexivity]).
  - intros [rr Hr].
    pose proof (load_rentroll_file_cases to_numeric df) as H. simpl in H.
    case_decide as Hc; [| destruct H as [_ H]; rewrite H in Hr; discriminate Hr].
    destruct Hc as [(uc & Huc & Hucin)%Exists_exists (dc & Hdc & Hdcin)%Exists_exists].
    apply validate_csv_file_accepts; [exact Hstr |]. intros e He.
    apply elem_of_cons in He as [-> | He].
    + exists uc. split; [exact Hucin |].
      unfold unit_col_candidates in Huc. split_mem; subst uc; reflexivity.
    + apply list_elem_of_singleton in He as ->.
      exists dc. split; [exact Hdcin |].
      unfold days_col_candidates in Hdc. split_mem; subst dc; reflexivity.
  - intros [lk Hl]. pose proof (load_locks_file_cases df) as H. simpl in H.
    case_decide as Hc; [| destruct H as [_ H]; rewrite H in Hl; discriminate Hl].
    apply validate_csv_file_accepts; [exact Hstr |]. intros e He.
    split_mem; subst e;
      [exists "Unit Number" | exists "Status"]; (split; [tauto | reflexivity]).
  - intros (type_name & Hin & Hs)%strip_labels_other. exists type_name.
    split; [exact Hin |]. intros expected_columns.
    unfold validate_csv_file. rewrite Hs. reflexivity.
Qed.

Lemma validate_csv_file_accepts_loadable_witness :
  (validate_csv_file scenario_locks false ["Unit Number"; "Status"] "locks.csv").1
  = true
  ∧ ∃ type_name,
      OtherLabel type_name ∈ columns locks_number_label
      ∧ ∀ expected_columns,
          validate_csv_file locks_number_label true expected_columns "locks.xlsx"
          = (false, "Error reading locks.xlsx: '" +:+ type_name
                    +:+ "' object has no attribute 'strip'").
Proof.
  split.
  - apply (validate_csv_file_accepts_loadable to_numeric_digits scenario_locks
             false "locks.csv").
    + reflexivity.
    + eexists. vm_compute. reflexivity.
  - apply (validate_csv_file_accepts_loadable to_numeric_digits
             locks_number_label true "locks.xlsx").
    reflexivity.
Defined.

(** A spreadsheet of locks with a number in the header: the loader
    returns its rows, the upload check rejects it. *)
Example locks_number_label_loaded_not_validated :
  load_locks_file locks_number_label
  = (inr [{| Locks.Unit := "A1"; Locks.Lock_Status := "Assigned Vacant" |}], [])
  ∧ validate_csv_file locks_number_label true ["Unit Number"; "Status"] "locks.xlsx"
    = (false, "Error reading locks.xlsx: 'int' object has no attribute 'strip'").
Proof. vm_compute. split; reflexivity. Qed.

(** ** The values of the final status *)

Lemma to_dict_acc_Some {A} (key value : A -> string) (rows : list A)
    (m : gmap string string) (k v : string) :
  foldl (λ m r, <[key r := value r]> m) m rows !! k = Some v ->
  m !! k = Some v ∨ ∃ r, r ∈ rows ∧ key r = k ∧ value r = v.
Proof.
  revert m. induction rows as [| r rows IH]; intros m; simpl; [auto |].
  intros [H | (r' & Hr' & Hk & Hv)]%IH.
  - apply lookup_insert_Some in H as [[Hk Hv] | [_ H]]; [| auto].
    right. exists r. split; [left | auto].
  - right. exists r'. split; [right; exact Hr' | auto].
Qed.

(** A value of the dictionary is the value of one of the rows. *)
Lemma to_dict_Some {A} (key value : A -> string) (rows : list A) (k v : string) :
  to_dict key value rows !! k = Some v ->
  ∃ r, r ∈ rows ∧ key r = k ∧ value r = v.
Proof.
  intros [H | H]%to_dict_acc_Some; [| exact H].
  rewrite lookup_empty in H. discriminate H.
Qed.

Lemma load_rentroll_file_payment (to_numeric : string -> float) (df : DataFrame)
    (rr : list Rentroll.row) (l : list log_record) (r : Rentroll.row) :
  load_rentroll_file to_numeric df = (inr rr, l) ->
  r ∈ rr ->
  Rentroll.Payment_Status r ∈ ["Current"; "Delinquent"].
Proof.
  intros Hl Hr. pose proof (load_rentroll_file_cases to_numeric df) as H.
  simpl in H. case_decide as Hc; [| destruct H as [_ H]; congruence].
  destruct H as (uc & dc & rr' & _ & _ & Hrr & Hlen & Hrows).
  rewrite Hl in Hrr. injection Hrr as <-.
  apply list_elem_of_lookup_1 in Hr as [i Hi].
  destruct (values df !! i) as [raw |] eqn:Hraw.
  - destruct (Hrows i raw Hraw) as (r' & Hr' & _ & _ & _ & _ & Hp).
    rewrite Hi in Hr'. injection Hr' as <-. rewrite Hp.
    destruct (PrimFloat.ltb 0 (Rentroll.Days_Past_Due_Clean r)); [right |]; left.
  - apply lookup_ge_None in Hraw. apply lookup_lt_Some in Hi. lia.
Qed.

Lemma resolved_status_closed (m : gmap string string) (row : Units.row) :
  (∀ k v, m !! k = Some v -> v ∈ ["Current"; "Delinquent"]) ->
  resolved_status m row
  ∈ ["Vacant"; "Occupied-Current"; "Occupied-Delinquent"; "Unknown"].
Proof.
  intros Hm. unfold resolved_status, get_final_status.
  repeat case_decide; simpl; [left | | do 3 right; left].
  destruct (m !! Units.Unit row) as [p |] eqn:Hp; simpl; [| left].
  specialize (Hm _ _ Hp). split_mem; subst p; [right; left | right; right; left].
Qed.

Lemma pipeline_final_status_closed (m : gmap string string) (u : list Units.row)
    (lk : list Locks.row) :
  (∀ k v, m !! k = Some v -> v ∈ ["Current"; "Delinquent"]) ->
  Forall (λ r, Master.Final_Status r
               ∈ ["Vacant"; "Occupied-Current"; "Occupied-Delinquent"; "Unknown"])
    (detect_miscompares (add_lock_status (with_status m <$> u) lk)).
Proof.
  intros Hm. apply Forall_forall.
  intros r (row & Hrow & ->)%elem_of_detect_miscompares.
  apply elem_of_add_lock_status in Hrow as (w & Hw & _ & _ & Hf & _).
  simpl. rewrite Hf.
  apply list_elem_of_fmap in Hw as (x & -> & _). simpl.
  apply resolved_status_closed, Hm.
Qed.

(** X12: every row of the table of a run has one of the four final
    statuses Vacant, Occupied-Current, Occupied-Delinquent and Unknown. *)
Theorem final_status_closed_set (to_numeric : string -> float)
    (self self' : Analyzer) (units_file rentroll_file locks_file : DataFrame)
    (table : list Master.row) (l : list log_record) :
  run_analysis to_numeric self units_file rentroll_file locks_file
  = (self', (inr table, l)) ->
  Forall (λ r, Master.Final_Status r
               ∈ ["Vacant"; "Occupied-Current"; "Occupied-Delinquent"; "Unknown"])
    table.
Proof.
  intros H. apply run_analysis_inr in H
    as (rr & lk & lu & lr & ll & ld & _ & Hr & _ & _ & _ & ->).
  apply pipeline_final_status_closed.
  intros k v (r & Hin & _ & <-)%to_dict_Some.
  eapply load_rentroll_file_payment; eassumption.
Qed.

Lemma final_status_closed_set_witness :
  Forall (λ r, Master.Final_Status r
               ∈ ["Vacant"; "Occupied-Current"; "Occupied-Delinquent"; "Unknown"])
    scenario_table.
Proof.
  apply (final_status_closed_set to_numeric_digits init
           scenario_run.1 scenario_units scenario_rentroll scenario_locks
           scenario_table scenario_run.2.2).
  vm_compute. reflexivity.
Defined.

(** ** Reading the result off the analyzer *)

Lemma run_analysis_master_df (to_numeric : string -> float) (self self' : Analyzer)
    (units_file rentroll_file locks_file : DataFrame)
    (table : list Master.row) (l : list log_record) :
  run_analysis to_numeric self units_file rentroll_file locks_file
  = (self', (inr table, l)) ->
  master_df self' = Some table.
Proof.
  unfold run_analysis, step.
  destruct (load_units_file units_file) as [[eu | u] lu]; [discriminate |].
  destruct (load_rentroll_file to_numeric rentroll_file) as [[er | rr] lr];
    [discriminate |].
  destruct (load_locks_file locks_file) as [[el | lk] ll]; [discriminate |].
  rewrite determine_unit_status_returns. simpl.
  intros [= <- <- _]. reflexivity.
Qed.

(** X13: after a run that returned a table, [get_miscompares] returns
    the rows of that table that are miscompares, in table order; their
    number is the [miscompare_count] of the summary, and none of them has
    the severity "No Issue" or the final status Unknown. *)
Theorem get_miscompares_after_run (to_numeric : string -> float)
    (self self' : Analyzer) (units_file rentroll_file locks_file : DataFrame)
    (table : list Master.row) (l : list log_record) :
  run_analysis to_numeric self units_file rentroll_file locks_file
  = (self', (inr table, l)) ->
  ∃ rows,
    get_miscompares self' = inr rows
    ∧ rows = filter (λ r, Master.Is_Miscompare r = true) table
    ∧ Z.of_nat (length rows) = miscompare_count (generate_summary_report table)
    ∧ Forall (λ r, Master.Miscompare_Severity r ≠ "No Issue"
                   ∧ Master.Final_Status r ≠ "Unknown") rows.
Proof.
  intros H. pose proof (run_analysis_master_df _ _ _ _ _ _ _ _ H) as Hm.
  unfold get_miscompares. rewrite Hm. eexists. split; [reflexivity |].
  split; [reflexivity |]. split.
  - simpl. rewrite sum_bool_count, length_filter_flags. reflexivity.
  - apply run_analysis_inr in H
      as (rr & lk & lu & lr & ll & ld & _ & _ & _ & _ & _ & ->).
    apply Forall_forall. intros r [Hmis Hr]%list_elem_of_filter.
    apply elem_of_detect_miscompares in Hr as (row & _ & ->).
    simpl in *. split.
    + intros Hs. apply (severity_no_issue (flag row)) in Hs.
      simpl in Hs. congruence.
    + intros Hu. apply is_miscompare_unknown in Hu. congruence.
Qed.

Lemma get_miscompares_after_run_witness :
  ∃ rows,
    get_miscompares scenario_run.1 = inr rows
    ∧ rows = filter (λ r, Master.Is_Miscompare r = true) scenario_table
    ∧ Z.of_nat (length rows)
      = miscompare_count (generate_summary_report scenario_table)
    ∧ Forall (λ r, Master.Miscompare_Severity r ≠ "No Issue"
                   ∧ Master.Final_Status r ≠ "Unknown") rows.
Proof.
  apply (get_miscompares_after_run to_numeric_digits init
           scenario_run.1 scenario_units scenario_rentroll scenario_locks
           scenario_table scenario_run.2.2).
  vm_compute. reflexivity.
Defined.

(** ** The sheets of [save_results] *)

(** X14: [save_results] raises when no run has set [master_df].
    Otherwise it writes the sheet "Unit_Analysis" with the whole table
    first; the sheet "Summary" exactly when [include_summary] is set;
    and the sheet "Miscompares" exactly when [include_summary] is set and
    the table has a miscompare, with the rows [get_miscompares] returns. *)
Theorem save_results_sheets (self : Analyzer) (include_summary : bool) :
  match master_df self with
  | None =>
      save_results self include_summary
      = inl (ValueError "No analysis results to save. Run analysis first.")
  | Some table =>
      ∃ sheets,
        save_results self include_summary
        = inr (TableSheet "Unit_Analysis" table :: sheets)
        ∧ (∀ summary, SummarySheet "Summary" summary ∈ sheets
                      ↔ include_summary = true
                        ∧ summary = generate_summary_report table)
        ∧ (∀ name rows, TableSheet name rows ∈ sheets
                        ↔ include_summary = true
                          ∧ name = "Miscompares"
                          ∧ rows ≠ []
                          ∧ get_miscompares self = inr rows)
  end.
Proof.
  unfold save_results, get_miscompares.
  destruct (master_df self) as [table |]; [| reflexivity].
  eexists. split; [reflexivity |].
  destruct include_summary.
  - destruct (filter (λ r, Master.Is_Miscompare r = true) table) as [| r rs] eqn:Hf.
    + split.
      * intros summary. rewrite list_elem_of_singleton.
        split; [intros [= ->]; auto | intros [_ ->]; reflexivity].
      * intros name rows. rewrite list_elem_of_singleton. split; [discriminate |].
        intros (_ & _ & Hne & [= <-]). contradiction.
    + split.
      * intros summary. rewrite elem_of_cons, list_elem_of_singleton.
        split; [intros [[= ->] | H]; [auto | discriminate H]
               | intros [_ ->]; left; reflexivity].
      * intros name rows. rewrite elem_of_cons, list_elem_of_singleton. split.
        -- intros [H | [= -> ->]]; [discriminate H |]. split_and!; auto.
        -- intros (_ & -> & _ & [= <-]). right. reflexivity.
  - split.
    + intros summary. rewrite elem_of_nil. split; [tauto | intros [H _]; discriminate H].
    + intros name rows. rewrite elem_of_nil. split; [tauto | intros [H _]; discriminate H].
Qed.

(** ** The breakdowns of the summary *)

Lemma value_counts_acc (l : list string) (m : gmap string nat) (k : string) :
  default 0 (foldl (λ m k, <[k := S (default 0 (m !! k))]> m) m l !! k)
  = default 0 (m !! k) + length (filter (λ x, x = k) l)
  ∧ (foldl (λ m k, <[k := S (default 0 (m !! k))]> m) m l !! k = None
     ↔ m !! k = None ∧ k ∉ l).
Proof.
  revert m. induction l as [| a l IH]; intros m; simpl.
  - split; [lia |]. split; [intros H; split; [exact H | apply not_elem_of_nil] | tauto].
  - destruct (IH (<[a := S (default 0 (m !! a))]> m)) as [IH1 IH2].
    rewrite IH1, IH2, filter_cons, not_elem_of_cons.
    destruct (decide (a = k)) as [-> | Hne].
    + rewrite lookup_insert_eq. simpl. split; [lia |].
      split; [intros [H _]; discriminate H | intros [_ [H _]]; congruence].
    + rewrite lookup_insert_ne by exact Hne. split; [lia |].
      split; [intros [H1 H2]; auto | intros [H1 [_ H2]]; auto].
Qed.

Lemma value_counts_count (l : list string) (k : string) :
  get0 (value_counts l) k = length (filter (λ x, x = k) l)
  ∧ (value_counts l !! k = None ↔ k ∉ l).
Proof.
  unfold get0, value_counts. destruct (value_counts_acc l ∅ k) as [H1 H2].
  rewrite H1, H2, lookup_empty. simpl. tauto.
Qed.

(** X15: each breakdown of the summary (by final status, by actual lock
    status, by severity) gives, for a value, the number of rows of the
    table that carry it, and has no entry for a value that no row
    carries. *)
Theorem summary_breakdowns_count (df : list Master.row) (k : string) :
  let summary := generate_summary_report df in
  (get0 (unit_status_breakdown summary) k
   = length (filter (λ r, Master.Final_Status r = k) df)
   ∧ (unit_status_breakdown summary !! k = None
      ↔ Forall (λ r, Master.Final_Status r ≠ k) df))
  ∧ (get0 (lock_status_breakdown summary) k
     = length (filter (λ r, Master.Actual_Lock_Status r = k) df)
     ∧ (lock_status_breakdown summary !! k = None
        ↔ Forall (λ r, Master.Actual_Lock_Status r ≠ k) df))
  ∧ (get0 (severity_breakdown summary) k
     = length (filter (λ r, Master.Miscompare_Severity r = k) df)
     ∧ (severity_breakdown summary !! k = None
        ↔ Forall (λ r, Master.Miscompare_Severity r ≠ k) df)).
Proof.
  assert (Hcol : ∀ f : Master.row -> string,
            get0 (value_counts (f <$> df)) k = length (filter (λ r, f r = k) df)
            ∧ (value_counts (f <$> df) !! k = None ↔ Forall (λ r, f r ≠ k) df)).
  { intros f. destruct (value_counts_count (f <$> df) k) as [H1 H2].
    rewrite H1, H2, <- length_filter_fmap. split; [reflexivity |].
    rewrite Forall_forall, list_elem_of_fmap. split.
    - intros Hn r Hr Heq. apply Hn. exists r. auto.
    - intros Hall (r & -> & Hr). exact (Hall r Hr eq_refl). }
  simpl. split_and!; apply Hcol.
Qed.

(** ** Counting by severity *)

Lemma severity_values (row : Flagged.row) :
  get_miscompare_severity row
  ∈ ["No Issue"; "HIGH - Vacant unit with tenant lock";
     "HIGH - Current tenant without proper lock";
     "HIGH - Delinquent unit without lock"; "MEDIUM - Lock status mismatch"].
Proof.
  unfold get_miscompare_severity.
  repeat case_match;
    [left | right; left | do 2 right; left | do 3 right; left | do 4 right; left].
Qed.

Lemma count_contains_cons (pat s : string) (l : list string) :
  count_contains pat (s :: l)
  = (if Py.contains pat s then 1 else 0) + count_contains pat l.
Proof.
  unfold count_contains. rewrite filter_cons.
  destruct (Py.contains pat s); reflexivity.
Qed.

Lemma length_filter_eq_cons (k s : string) (l : list string) :
  length (filter (λ x, x = k) (s :: l))
  = (if decide (s = k) then 1 else 0) + length (filter (λ x, x = k) l).
Proof. rewrite filter_cons. case_decide; reflexivity. Qed.

(** On a column of severities, the rows that contain "HIGH" are the rows
    of the three HIGH labels, the rows that contain "MEDIUM" are the rows
    of the MEDIUM label, and the other rows are "No Issue". *)
Lemma severity_counts (sevs : list string) :
  Forall (λ s, s ∈ ["No Issue"; "HIGH - Vacant unit with tenant lock";
                    "HIGH - Current tenant without proper lock";
                    "HIGH - Delinquent unit without lock";
                    "MEDIUM - Lock status mismatch"]) sevs ->
  count_contains "HIGH" sevs
  = length (filter (λ x, x = "HIGH - Vacant unit with tenant lock") sevs)
    + length (filter (λ x, x = "HIGH - Current tenant without proper lock") sevs)
    + length (filter (λ x, x = "HIGH - Delinquent unit without lock") sevs)
  ∧ count_contains "MEDIUM" sevs
    = length (filter (λ x, x = "MEDIUM - Lock status mismatch") sevs)
  ∧ count_contains "HIGH" sevs + count_contains "MEDIUM" sevs
      + length (filter (λ x, x = "No Issue") sevs)
    = length sevs.
Proof.
  induction 1 as [| s sevs Hs _ IH]; [split_and!; reflexivity |].
  destruct IH as (IH1 & IH2 & IH3).
  rewrite !count_contains_cons, !length_filter_eq_cons. simpl length.
  split_mem; subst s; simpl; lia.
Qed.

(** X16: on a table of [detect_miscompares], the severity counts of the
    report generator, of the summary and of the console agree: the rows
    whose severity contains "HIGH" are as many as the three HIGH entries
    of the severity breakdown together, the rows that contain "MEDIUM"
    as many as its MEDIUM entry, and the two together as many as the
    miscompares. *)
Theorem severity_counts_agree (round2 : float -> float) (wl : list WithLocks.row) :
  let df := detect_miscompares wl in
  let data := _create_summary_data round2 df in
  let summary := generate_summary_report df in
  High_Severity_Miscompares data = high_severity_issues summary
  ∧ Medium_Severity_Miscompares data
    = get0 (severity_breakdown summary) "MEDIUM - Lock status mismatch"
  ∧ Z.of_nat (High_Severity_Miscompares data + Medium_Severity_Miscompares data)
    = Total_Miscompares data
  ∧ Total_Miscompares data = miscompare_count summary
  ∧ Total_Units data = total_units summary.
Proof.
  intros df data summary.
  assert (Hsev : Forall (λ s, s ∈ ["No Issue"; "HIGH - Vacant unit with tenant lock";
                                   "HIGH - Current tenant without proper lock";
                                   "HIGH - Delinquent unit without lock";
                                   "MEDIUM - Lock status mismatch"])
                   (Master.Miscompare_Severity <$> df)).
  { apply Forall_fmap, Forall_forall.
    intros r (row & _ & ->)%elem_of_detect_miscompares. apply severity_values. }
  destruct (severity_counts _ Hsev) as (Hh & Hm & Hall).
  assert (Hno : length (filter (λ x, x = "No Issue") (Master.Miscompare_Severity <$> df))
                + length (filter (λ r, Master.Is_Miscompare r = true) df)
                = length df).
  { rewrite <- length_filter_fmap. clear. subst df.
    induction wl as [| w wl IH]; [reflexivity |].
    unfold detect_miscompares in *. rewrite !fmap_cons, !filter_cons. simpl length.
    pose proof (severity_no_issue (flag w)) as Hw. simpl in Hw.
    destruct (is_miscompare w) eqn:Hmis; repeat case_decide; simpl in *;
      try lia; try congruence; try tauto.
    apply Hw in H. discriminate H. }
  unfold data, summary, high_severity_issues. simpl.
  rewrite sum_bool_count, length_filter_flags.
  rewrite Hh, Hm.
  rewrite !(proj1 (value_counts_count _ _)).
  split_and!; try reflexivity.
  rewrite length_fmap in Hall. lia.
Qed.

(** ** Counting by final status *)

Lemma final_status_counts (finals : list string) :
  Forall (λ s, s ∈ ["Vacant"; "Occupied-Current"; "Occupied-Delinquent"; "Unknown"])
    finals ->
  length (filter (λ x, x = "Vacant") finals)
  + length (filter (λ x, x = "Occupied-Current") finals)
  + length (filter (λ x, x = "Occupied-Delinquent") finals)
  + length (filter (λ x, x = "Unknown") finals)
  = length finals.
Proof.
  induction 1 as [| s finals Hs _ IH]; [reflexivity |].
  rewrite !length_filter_eq_cons. simpl length.
  split_mem; subst s; simpl; lia.
Qed.

(** X17: on the table of a run, the three unit counts of the report's
    summary (Vacant, Occupied-Current, Occupied-Delinquent) and the
    number of rows of unknown status add up to the total: the summary
    leaves out exactly the units of unknown status. *)
Theorem summary_data_status_counts (to_numeric : string -> float)
    (round2 : float -> float)
    (self self' : Analyzer) (units_file rentroll_file locks_file : DataFrame)
    (table : list Master.row) (l : list log_record) :
  run_analysis to_numeric self units_file rentroll_file locks_file
  = (self', (inr table, l)) ->
  let data := _create_summary_data round2 table in
  Vacant_Units data + Occupied_Current_Units data + Occupied_Delinquent_Units data
  + length (filter (λ r, Master.Final_Status r = "Unknown") table)
  = Total_Units data
  ∧ Total_Units data = length (values units_file).
Proof.
  intros H data. split.
  - pose proof H as H'. apply run_analysis_inr in H'
      as (rr & lk & lu & lr & ll & ld & _ & Hr & _ & _ & _ & Ht).
    assert (Hclosed : Forall (λ s, s ∈ ["Vacant"; "Occupied-Current";
                                        "Occupied-Delinquent"; "Unknown"])
                        (Master.Final_Status <$> table)).
    { apply Forall_fmap. rewrite Ht. apply pipeline_final_status_closed.
      intros k v (r & Hin & _ & <-)%to_dict_Some.
      eapply load_rentroll_file_payment; eassumption. }
    apply final_status_counts in Hclosed.
    rewrite <- !length_filter_fmap, length_fmap in Hclosed.
    unfold data. simpl. exact Hclosed.
  - unfold data. simpl. eapply run_analysis_length, H.
Qed.

Lemma summary_data_status_counts_witness :
  Vacant_Units (_create_summary_data (λ x, x) scenario_table)
  + Occupied_Current_Units (_create_summary_data (λ x, x) scenario_table)
  + Occupied_Delinquent_Units (_create_summary_data (λ x, x) scenario_table)
  + length (filter (λ r, Master.Final_Status r = "Unknown") scenario_table)
  = Total_Units (_create_summary_data (λ x, x) scenario_table)
  ∧ Total_Units (_create_summary_data (λ x, x) scenario_table)
    = length (values scenario_units).
Proof.
  apply (summary_data_status_counts to_numeric_digits (λ x, x) init
           scenario_run.1 scenario_units scenario_rentroll scenario_locks
           scenario_table scenario_run.2.2).
  vm_compute. reflexivity.
Defined.

(** ** The alert report *)

Lemma priority_le_trans : Transitive priority_le.
Proof.
  intros [a |] [b |] [c |]; simpl; try tauto. lia.
Qed.

Lemma priority_le_total : Total priority_le.
Proof.
  intros [a |] [b |]; simpl; try tauto. lia.
Qed.

#[global] Instance by_priority_trans : Transitive by_priority.
Proof. intros a b c. unfold by_priority. apply priority_le_trans. Qed.

#[global] Instance by_priority_total : Total by_priority.
Proof. intros a b. unfold by_priority. apply priority_le_total. Qed.

(** The priority and the recommended action of a miscompare of the
    pipeline, read off its severity. *)
Lemma miscompare_priority_action (row : Flagged.row) :
  Flagged.Is_Miscompare row = true ->
  (priority_order !! get_miscompare_severity row,
   get_recommended_action (grade row))
  ∈ [(Some 1%Z, "Remove tenant lock and verify unit is truly vacant");
     (Some 2%Z, "Install proper tenant lock immediately");
     (Some 3%Z, "Install overlock or proceed to auction");
     (Some 4%Z, "Review lock assignment and correct as needed")].
Proof.
  intros Hm. unfold get_recommended_action. simpl.
  pose proof (severity_values row) as Hs.
  pose proof (severity_no_issue row) as Hn.
  remember (get_miscompare_severity row) as sev eqn:Hsev. clear Hsev.
  split_mem; subst sev.
  - exfalso. destruct Hn as [Hn _]. specialize (Hn eq_refl). congruence.
  - vm_compute. left.
  - vm_compute. right. left.
  - vm_compute. do 2 right. left.
  - vm_compute. do 3 right. left.
Qed.

(** X18: let the sort permute its input and return it in ascending
    order of priority.  On a table of [detect_miscompares], the alert
    report has one alert per miscompare of the table and no other; the
    alerts are in ascending order of priority; every alert has a priority
    from 1 to 4 (never NaN) and the recommended action of that priority;
    and the report is empty exactly when the table has no miscompare. *)
Theorem alert_report_prioritised
    (sort_values : list (Master.row * option Z) -> list (Master.row * option Z))
    (wl : list WithLocks.row) :
  (∀ l, sort_values l ≡ₚ l) ->
  (∀ l, StronglySorted (λ a b, priority_le a.2 b.2) (sort_values l)) ->
  let df := detect_miscompares wl in
  let alerts := generate_alert_report sort_values df in
  Alert.Unit <$> alerts
  ≡ₚ Master.Unit <$> filter (λ r, Master.Is_Miscompare r = true) df
  ∧ StronglySorted (λ a b, priority_le (Alert.Priority a) (Alert.Priority b)) alerts
  ∧ Forall (λ a, (Alert.Priority a, Alert.Recommended_Action a)
                 ∈ [(Some 1%Z, "Remove tenant lock and verify unit is truly vacant");
                    (Some 2%Z, "Install proper tenant lock immediately");
                    (Some 3%Z, "Install overlock or proceed to auction");
                    (Some 4%Z, "Review lock assignment and correct as needed")])
      alerts
  ∧ (alerts = [] ↔ Forall (λ r, Master.Is_Miscompare r = false) df).
Proof.
  intros Hperm Hsorted df alerts. unfold alerts, generate_alert_report.
  destruct (filter (λ r, Master.Is_Miscompare r = true) df) as [| r0 rs] eqn:Hf.
  - split_and!; [reflexivity | constructor | constructor |].
    split; [intros _ | reflexivity].
    apply Forall_forall. intros r Hr.
    destruct (Master.Is_Miscompare r) eqn:Hm; [| reflexivity].
    exfalso. exact (filter_nil_not_elem_of _ _ r Hf Hm Hr).
  - rewrite <- Hf.
    set (miscompares := filter (λ r, Master.Is_Miscompare r = true) df).
    set (wp := (λ r, (r, priority_order !! Master.Miscompare_Severity r))
               <$> miscompares).
    split_and!.
    + rewrite <- list_fmap_compose.
      rewrite (Hperm wp). unfold wp. rewrite <- list_fmap_compose. reflexivity.
    + eapply StronglySorted_fmap; [| apply Hsorted]. intros x y Hxy. exact Hxy.
    + apply Forall_fmap, Forall_forall. intros [r p] Hrp. simpl.
      rewrite (Hperm wp) in Hrp. unfold wp in Hrp.
      apply list_elem_of_fmap in Hrp as (r' & [= -> ->] & Hr').
      apply list_elem_of_filter in Hr' as [Hm Hr'].
      apply elem_of_detect_miscompares in Hr' as (row & _ & ->).
      apply (miscompare_priority_action (flag row)). exact Hm.
    + split.
      * intros Hnil. apply fmap_nil_inv in Hnil.
        assert (Hwp : wp = []).
        { apply Permutation_nil_r. rewrite <- (Hperm wp), Hnil. reflexivity. }
        unfold wp, miscompares in Hwp. rewrite Hf in Hwp. discriminate Hwp.
      * intros Hall. exfalso.
        assert (Hr0 : r0 ∈ filter (λ r, Master.Is_Miscompare r = true) df)
          by (rewrite Hf; left).
        apply list_elem_of_filter in Hr0 as [Hm Hr0].
        rewrite Forall_forall in Hall. specialize (Hall r0 Hr0). congruence.
Qed.

Lemma alert_report_prioritised_witness :
  StronglySorted (λ a b, priority_le (Alert.Priority a) (Alert.Priority b))
    (generate_alert_report sort_by_priority
       (detect_miscompares [delinquent_overlocked; delinquent_unlocked]))
  ∧ Forall (λ a, (Alert.Priority a, Alert.Recommended_Action a)
                 ∈ [(Some 1%Z, "Remove tenant lock and verify unit is truly vacant");
                    (Some 2%Z, "Install proper tenant lock immediately");
                    (Some 3%Z, "Install overlock or proceed to auction");
                    (Some 4%Z, "Review lock assignment and correct as needed")])
      (generate_alert_report sort_by_priority
         (detect_miscompares [delinquent_overlocked; delinquent_unlocked])).
Proof.
  destruct (alert_report_prioritised sort_by_priority
              [delinquent_overlocked; delinquent_unlocked])
    as (_ & Hsorted & Hall & _).
  - intros l. apply merge_sort_Permutation.
  - intros l. apply (StronglySorted_merge_sort by_priority).
  - split; [exact Hsorted | exact Hall].
Defined.

(** ** Duplicate rows of the locks table *)

(** X19: when the locks table has several rows for a unit, the last one
    decides the actual lock status of that unit. *)
Theorem last_lock_row_wins (ws : list WithStatus.row)
    (before after : list Locks.row) (last : Locks.row)
    (i : nat) (w : WithStatus.row) :
  ws !! i = Some w ->
  Locks.Unit last = WithStatus.Unit w ->
  WithStatus.Unit w ∉ Locks.Unit <$> after ->
  ∃ r, add_lock_status ws (before ++ last :: after) !! i = Some r
       ∧ WithLocks.Unit r = WithStatus.Unit w
       ∧ WithLocks.Final_Status r = WithStatus.Final_Status w
       ∧ WithLocks.Actual_Lock_Status r = Locks.Lock_Status last.
Proof.
  intros Hi Hu Ha. unfold add_lock_status.
  rewrite list_lookup_fmap, Hi. simpl. eexists. split; [reflexivity |]. simpl.
  split_and!; [reflexivity | reflexivity |].
  rewrite <- Hu in *. rewrite to_dict_last by exact Ha. reflexivity.
Qed.

Lemma last_lock_row_wins_witness :
  ∃ r, add_lock_status [delinquent_resolved]
         ([{| Locks.Unit := "U8"; Locks.Lock_Status := "Assigned Vacant" |}]
          ++ {| Locks.Unit := "U8"; Locks.Lock_Status := "Assigned Auction" |}
             :: one_lock) !! 0 = Some r
       ∧ WithLocks.Unit r = "U8"
       ∧ WithLocks.Final_Status r = "Occupied-Delinquent"
       ∧ WithLocks.Actual_Lock_Status r = "Assigned Auction".
Proof.
  apply (last_lock_row_wins [delinquent_resolved] _ one_lock
           {| Locks.Unit := "U8"; Locks.Lock_Status := "Assigned Auction" |}
           0 delinquent_resolved).
  - reflexivity.
  - reflexivity.
  - simpl. intros H. split_mem. discriminate H.
Defined.

(** ** A run, row by row *)

(** X20: in the table of a run, row [i] is computed from row [i] of the
    units input, the loaded rentroll and the loaded locks alone: its
    unit is the trimmed identifier; its final status is Vacant for the
    code "VAC", for the code "OCC" it is "Occupied-" followed by the
    payment status the rentroll holds for the unit, or Vacant when the
    rentroll has no row of the unit, and Unknown for every other code;
    its actual lock status is the one the locks table holds for the unit,
    or "No Lock Assigned". *)
Theorem run_analysis_row (to_numeric : string -> float)
    (self self' : Analyzer) (units_file rentroll_file locks_file : DataFrame)
    (table : list Master.row) (l : list log_record) :
  run_analysis to_numeric self units_file rentroll_file locks_file
  = (self', (inr table, l)) ->
  ∃ rr lk,
    (load_rentroll_file to_numeric rentroll_file).1 = inr rr
    ∧ (load_locks_file locks_file).1 = inr lk
    ∧ ∀ i raw, values units_file !! i = Some raw ->
        ∃ r, table !! i = Some r
             ∧ let unit := Py.strip (cell (columns units_file) raw "Unit") in
               let code :=
                 Py.upper (Py.slice_to 3 (cell (columns units_file) raw "Status")) in
               Master.Unit r = unit
               ∧ Master.Final_Status r
                 = (if decide (code = "VAC") then "Vacant"
                    else if decide (code = "OCC") then
                      match to_dict Rentroll.Unit Rentroll.Payment_Status rr !! unit with
                      | Some payment_status => "Occupied-" +:+ payment_status
                      | None => "Vacant"
                      end
                    else "Unknown")
               ∧ Master.Actual_Lock_Status r
                 = default "No Lock Assigned"
                     (to_dict Locks.Unit Locks.Lock_Status lk !! unit).
Proof.
  intros H. apply run_analysis_inr in H
    as (rr & lk & lu & lr & ll & ld & _ & Hr & Hl & _ & _ & ->).
  exists rr, lk. rewrite Hr, Hl. split_and!; [reflexivity | reflexivity |].
  intros i raw Hraw.
  rewrite detect_miscompares_lookup. unfold add_lock_status.
  rewrite !list_lookup_fmap, Hraw. simpl. eexists. split; [reflexivity |].
  simpl. split_and!; [reflexivity | | reflexivity].
  unfold resolved_status, get_final_status, normalise_unit. simpl.
  rewrite status_mapping_lookup.
  destruct (decide (_ = "OCC")) as [Ho | Ho]; simpl.
  - rewrite Ho. simpl.
    destruct (to_dict Rentroll.Unit Rentroll.Payment_Status rr !! _); reflexivity.
  - destruct (decide (_ = "VAC")) as [Hv | Hv]; reflexivity.
Qed.

Lemma run_analysis_row_witness :
  ∃ rr lk,
    (load_rentroll_file to_numeric_digits scenario_rentroll).1 = inr rr
    ∧ (load_locks_file scenario_locks).1 = inr lk
    ∧ ∀ i raw, values scenario_units !! i = Some raw ->
        ∃ r, scenario_table !! i = Some r
             ∧ let unit := Py.strip (cell (columns scenario_units) raw "Unit") in
               let code :=
                 Py.upper (Py.slice_to 3 (cell (columns scenario_units) raw "Status")) in
               Master.Unit r = unit
               ∧ Master.Final_Status r
                 = (if decide (code = "VAC") then "Vacant"
                    else if decide (code = "OCC") then
                      match to_dict Rentroll.Unit Rentroll.Payment_Status rr !! unit with
                      | Some payment_status => "Occupied-" +:+ payment_status
                      | None => "Vacant"
                      end
                    else "Unknown")
               ∧ Master.Actual_Lock_Status r
                 = default "No Lock Assigned"
                     (to_dict Locks.Unit Locks.Lock_Status lk !! unit).
Proof.
  apply (run_analysis_row to_numeric_digits init
           scenario_run.1 scenario_units scenario_rentroll scenario_locks
           scenario_table scenario_run.2.2).
  vm_compute. reflexivity.
Defined.
